(** * Mollie for Raycast: payments list, today's revenue and the refund workflow

    A shallow embedding of [src/payments-list.tsx] and
    [src/transactionsMenuBar.tsx].  Pure helpers become functions; the
    asynchronous [handleRefund] becomes a program in a small state-and-exception
    monad over an explicit record of everything it can touch.

    What the JavaScript runtime provides (number parsing, [Intl] formatting,
    [Date.parse], [JSON.stringify], the host time zone) is not code of the
    repository: it is gathered in the classes [Dates], [Numbers] and
    [JsonText], and the definitions are parametric in them. *)

From Stdlib Require Import PrimFloat.
From stdpp Require Import base list strings numbers pretty.

Set Warnings "-register-all".
Local Open Scope string_scope.

(** ** JavaScript values used by the two commands *)

(** A JavaScript number holding a time value: [None] is [NaN], the time value
    of an [Invalid Date]. *)
Definition TimeValue := option Z.

(** [a >= b] on time values: any comparison with [NaN] is [false]. *)
Definition time_ge (a b : TimeValue) : bool :=
  match a, b with
  | Some x, Some y => bool_decide (y ≤ x)%Z
  | _, _ => false
  end.

(** [a === b] on time values: [NaN] is equal to nothing, itself included. *)
Definition time_strict_eq (a b : TimeValue) : bool :=
  match a, b with
  | Some x, Some y => bool_decide (x = y)
  | _, _ => false
  end.

(** Values produced by [JSON.parse] / [response.json()]. *)
Inductive Json :=
| JNull
| JBool (b : bool)
| JNum (n : float)
| JStr (s : string)
| JArr (items : list Json)
| JObj (fields : list (string * Json)).

Definition msPerDay : Z := 86400000.

(** ECMAScript's conversions between time values and local time, for a host
    whose [LocalTZA(t, isUTC)] is [tza]: the offset of local time from UTC, in
    milliseconds, in force at the UTC instant [t] when [isUTC], and the one
    by which the local time [t] is read when not (at a clock change, the
    offset before it). *)
Definition localTimeOf (tza : Z → bool → Z) (t : Z) : Z := (t + tza t true)%Z.

Definition utcOf (tza : Z → bool → Z) (t : Z) : Z := (t - tza t false)%Z.

(** [Day(LocalTime(t))]: the local calendar day of the instant [t]. *)
Definition dayOf (tza : Z → bool → Z) (t : Z) : Z :=
  (localTimeOf tza t `div` msPerDay)%Z.

(** [UTC(MakeDate(Day(LocalTime(t)), 0))]: local midnight of that day. *)
Definition startOfDayOf (tza : Z → bool → Z) (t : Z) : Z :=
  utcOf tza (dayOf tza t * msPerDay)%Z.

(** The services of the JavaScript runtime the commands call. *)
Class Dates := {
  (** time value of [new Date(s)] *)
  Date_parse : string → TimeValue;
  (** [LocalTZA(t, isUTC)] of the host's time zone; it changes with [t] where
      the zone has daylight saving time *)
  LocalTZA : Z → bool → Z;
  (** local midnight of a day is not after an instant of that day *)
  startOfDay_le : ∀ t, (startOfDayOf LocalTZA t ≤ t)%Z;
  (** and it belongs to that day *)
  startOfDay_day : ∀ t, dayOf LocalTZA (startOfDayOf LocalTZA t) = dayOf LocalTZA t
}.

Class Numbers := {
  (** [parseFloat(s)] *)
  parseFloat : string → float;
  (** [new Intl.NumberFormat("nl-NL", { style: "currency", currency }).format(v)] *)
  NumberFormat_currency : string → float → string
}.

Class JsonText := {
  (** [JSON.stringify(v)] *)
  JSON_stringify : Json → string;
  (** [String(v)] for a value that is not a string *)
  ToString : Json → string;
  (** message of the [TypeError] raised by reading property [k] of [null] *)
  nullPropertyMessage : string → string
}.

Class Strings := {
  (** [s.toLowerCase()] *)
  toLowerCase : string → string;
  (** [new Date(s).toLocaleDateString("nl-NL")] for the time value of the date *)
  toLocaleDateString : TimeValue → string
}.

(** The local calendar day of a time value, as a day number. *)
Definition localDay {dates : Dates} (t : Z) : Z := dayOf LocalTZA t.

(** [d.setHours(0, 0, 0, 0)]: the time of day of the local time of [d] is set
    to zero and the result is read back as a local time. *)
Definition setHours0 {dates : Dates} (d : TimeValue) : TimeValue :=
  match d with
  | Some t => Some (utcOf LocalTZA (localTimeOf LocalTZA t `div` msPerDay * msPerDay))%Z
  | None => None
  end.

(** The instant at which the local calendar day of [now] begins: 00:00 of
    that date, read as a local time. *)
Definition localMidnight {dates : Dates} (now : Z) : Z :=
  utcOf LocalTZA (localDay now * msPerDay)%Z.

Record Amount := { value : string; currency : string }.

(** The shape of an ISO-4217 currency code, which the data model gives to
    [currency]: three capital letters. *)
Definition isCapital (a : Ascii.ascii) : bool :=
  let n := Ascii.nat_of_ascii a in (65 <=? n)%nat && (n <=? 90)%nat.

Definition isCurrencyCode (c : string) : bool :=
  match c with
  | String a (String b (String d EmptyString)) =>
      isCapital a && isCapital b && isCapital d
  | _ => false
  end.

(** JavaScript truthiness of a string. *)
Definition truthy_string (s : string) : bool := negb (String.eqb s EmptyString).

(** ** [src/transactionsMenuBar.tsx] *)
Module TransactionsMenuBar.

Record Payment := {
  id : string;
  amount : Amount;
  description : string;
  status : string;
  createdAt : string
}.

Section Aggregate.
Context {dates : Dates} {numbers : Numbers}.

Definition formatCurrency (v : float) (cur : string) : string :=
  NumberFormat_currency cur v.

(** The start of the local day containing [now] ([new Date()] then
    [setHours(0, 0, 0, 0)] then [getTime()]). *)
Definition todayTimestamp (now : Z) : TimeValue := setHours0 (Some now).

Definition todayPaidPayments (now : Z) (payments : list Payment) : list Payment :=
  List.filter
    (λ p, let paymentDate := Date_parse (createdAt p) in
          String.eqb (status p) "paid" && time_ge paymentDate (todayTimestamp now))
    payments.

Definition total (now : Z) (payments : list Payment) : float :=
  fold_left (λ sum p, (sum + parseFloat (value (amount p)))%float)
            (todayPaidPayments now payments) 0%float.

(** [todayPaidPayments[0]?.amount.currency || "EUR"] *)
Definition aggregateCurrency (now : Z) (payments : list Payment) : string :=
  match todayPaidPayments now payments with
  | p :: _ => if truthy_string (currency (amount p)) then currency (amount p) else "EUR"
  | [] => "EUR"
  end.

Record Summary := { totalAmount : string; transactionCount : nat }.

(** The [useMemo] callback; [data] is [data?._embedded?.payments]. *)
Definition aggregateToday (now : Z) (data : option (list Payment)) : Summary :=
  match data with
  | None => {| totalAmount := formatCurrency 0%float "EUR"; transactionCount := 0 |}
  | Some payments =>
      {| totalAmount := formatCurrency (total now payments) (aggregateCurrency now payments);
         transactionCount := length (todayPaidPayments now payments) |}
  end.

(** **** The specification's reading of the aggregate *)

(** A payment counts: it is paid and was created at or after today's local
    midnight. *)
Definition Qualifies (now : Z) (p : Payment) : Prop :=
  status p = "paid" ∧
  match Date_parse (createdAt p) with
  | Some t => (localMidnight now ≤ t)%Z
  | None => False
  end.

#[global] Instance Qualifies_dec now p : Decision (Qualifies now p).
Proof. unfold Qualifies. destruct (Date_parse (createdAt p)); apply _. Defined.

(** The parsed amount values of [l], added from left to right. *)
Definition sumOfValues (l : list Payment) : float :=
  fold_left (λ acc p, (acc + parseFloat (value (amount p)))%float) l 0%float.

(** The currency of the first payment that counts, "EUR" when none does. *)
Definition firstCurrency (counted : list Payment) : string :=
  match counted with
  | [] => "EUR"
  | p :: _ => currency (amount p)
  end.

End Aggregate.

(** *** The menu *)

(** The settlement as fetched; the component checks both fields before it
    uses them. *)
Record Settlement := {
  settlementAmount : option Amount;
  settlementDate : option string
}.

Inductive MenuItem :=
| Item (title : string)
| (** an item whose [onAction] opens [url] *)
  OpenItem (title url : string).

Module MenuSection.
Record t := { title : option string; items : list MenuItem }.
End MenuSection.

Module Menu.
Record t := { title : string; isLoading : bool; sections : list MenuSection.t }.
End Menu.

Section MenuBar.
Context {dates : Dates} {numbers : Numbers} {strings : Strings}.

(** [settlementData?.amount && settlementData?.settlementDate], with the
    amount it guards. *)
Definition hasSettlementData (settlementData : option Settlement)
  : option (Amount * string) :=
  match settlementData with
  | Some {| settlementAmount := Some a; settlementDate := Some d |} =>
      if truthy_string d then Some (a, d) else None
  | _ => None
  end.

(** The specification's reading: the settlement has an amount and a date
    that is not the empty string. *)
Definition completeSettlement (settlementData : option Settlement) : Prop :=
  ∃ a d, settlementData
         = Some {| settlementAmount := Some a; settlementDate := Some d |}
         ∧ d ≠ EmptyString.

Definition revenueSection (summary : Summary) : MenuSection.t :=
  {| MenuSection.title := Some "Today's revenue";
     MenuSection.items :=
       [Item ("Total: " +:+ totalAmount summary);
        Item ("Transactions: " +:+ pretty (transactionCount summary))] |}.

Definition payoutSections (settlementData : option Settlement)
    (isLoadingSettlement : bool) : list MenuSection.t :=
  match hasSettlementData settlementData with
  | Some (a, d) =>
      [{| MenuSection.title := Some "Estimated next payout";
          MenuSection.items :=
            [Item (formatCurrency (parseFloat (value a)) (currency a));
             Item (toLocaleDateString (Date_parse d))] |}]
  | None =>
      if negb isLoadingSettlement then
        [{| MenuSection.title := Some "Next payout";
            MenuSection.items := [Item "No upcoming settlement"] |}]
      else []
  end.

Definition openSection : MenuSection.t :=
  {| MenuSection.title := None;
     MenuSection.items :=
       [OpenItem "Open Mollie"
          "https://my.mollie.com/dashboard/payments?period=today&status=paid"] |}.

(** What [TransactionsMenuBar] renders. *)
Definition render (now : Z) (data : option (list Payment)) (isLoading : bool)
    (settlementData : option Settlement) (isLoadingSettlement : bool) : Menu.t :=
  let summary := aggregateToday now data in
  {| Menu.title := "Today: " +:+ totalAmount summary;
     Menu.isLoading := isLoading || isLoadingSettlement;
     Menu.sections :=
       [revenueSection summary]
       ++ payoutSections settlementData isLoadingSettlement
       ++ [openSection] |}.

End MenuBar.
End TransactionsMenuBar.

(** ** [src/payments-list.tsx] *)
Module PaymentsList.

(** [status] is one of the eight literals of the source's type; it is kept a
    string, as the API delivers it and as [getStatusTag]'s default case
    allows. *)
Record Payment := {
  id : string;
  amount : Amount;
  description : string;
  status : string;
  method : option string;
  createdAt : string;
  (** [_links.dashboard.href] *)
  dashboardHref : string
}.

(** [Intl.NumberFormat] raises a [RangeError] for a currency that is not three
    letters; [NumberFormat_currency] stands for its result on the ISO-4217
    codes the data model holds, and the rows, which format the amount of
    every payment shown, are rendered for those only. *)
Definition formatCurrency {numbers : Numbers} (v cur : string) : string :=
  NumberFormat_currency cur (parseFloat v).

(** The two renderings [formatDateTime] chooses between, kept symbolic. *)
Inductive DateTimeText :=
| (** [date.toLocaleTimeString("nl-NL", { hour: "2-digit", minute: "2-digit" })] *)
  TimeOfDay (date : TimeValue)
| (** [date.toLocaleDateString("nl-NL", { day: "2-digit", month: "short" })] *)
  DayAndMonth (date : TimeValue).

(** [now] is the time value of [new Date()]. *)
Definition formatDateTime {dates : Dates} (now : Z) (dateString : string) : DateTimeText :=
  let date := Date_parse dateString in
  let today := setHours0 (Some now) in
  let todayTimestamp := today in
  let paymentDate := setHours0 date in
  if time_strict_eq paymentDate todayTimestamp then TimeOfDay date
  else DayAndMonth date.

(** *** The filter *)

(** [data?._embedded?.payments || []] *)
Definition allPayments (data : option (list Payment)) : list Payment :=
  default [] data.

Definition filteredPayments (allPayments : list Payment) (statusFilter : string)
  : list Payment :=
  if String.eqb statusFilter "all" then allPayments
  else List.filter (λ payment, String.eqb (status payment) statusFilter) allPayments.

(** *** What [handleRefund] talks to *)

Module Alert.
Record t := { title : string; message : string; primaryAction : string }.
End Alert.

Inductive ToastStyle := Animated | Success | Failure.

Module Toast.
Record t := { style : ToastStyle; title : string; message : option string }.
End Toast.

Module Request.
Record t := {
    url : string;
    method : string;
    headers : list (string * string);
    body : string
  }.
End Request.

(** A value raised by [throw] or by a rejected promise. *)
Inductive Thrown :=
| ErrorObject (message : string)   (* an instance of [Error] *)
| NotAnError.                      (* any other value *)

Module Response.
(** [json] is what [response.json()] settles to. *)
Record t := { status : N; json : Thrown + Json }.
(** [response.ok]: the status is in the range 200-299. *)
Definition ok (r : t) : bool := (200 <=? status r)%N && (status r <=? 299)%N.
End Response.

(** Everything the workflow can read or change. *)
Record World := {
  (** the collection held by [useFetch] *)
  payments : list Payment;
  (** calls of [revalidate()] *)
  revalidations : nat;
  (** requests sent with [fetch], oldest first *)
  requests : list Request.t;
  (** confirmation dialogs shown, oldest first *)
  alerts : list Alert.t;
  (** the toast on screen *)
  toast : option Toast.t;
  (** URLs opened in the browser, oldest first *)
  opened : list string;
  clipboard : option string
}.

(** What the user and the server answer. *)
Record Environment := {
  (** [true] for the primary action, [false] for Cancel or dismissal *)
  userConfirms : Alert.t → bool;
  (** the response to a request, or the value [fetch] rejects with *)
  network : Request.t → Thrown + Response.t
}.

(** An asynchronous computation: it reads the environment, changes the world
    and either throws or returns. *)
Definition Async (A : Type) : Type :=
  Environment → World → World * (Thrown + A).

#[global] Instance Async_ret : MRet Async := λ A a _ w, (w, inr a).

#[global] Instance Async_bind : MBind Async := λ A B f m env w,
  match m env w with
  | (w', inr a) => f a env w'
  | (w', inl e) => (w', inl e)
  end.

Definition throw {A} (e : Thrown) : Async A := λ _ w, (w, inl e).

Definition try_catch {A} (body : Async A) (handler : Thrown → Async A) : Async A :=
  λ env w,
    match body env w with
    | (w', inr a) => (w', inr a)
    | (w', inl e) => handler e env w'
    end.

(** Turns a settled promise into a return or a throw. *)
Definition settle {A} (r : Thrown + A) : Async A :=
  match r with inl e => throw e | inr a => mret a end.

Definition update (f : World → World) : Async () := λ _ w, (f w, inr ()).

Definition with_alerts (x : list Alert.t) (w : World) : World :=
  {| payments := payments w; revalidations := revalidations w;
     requests := requests w; alerts := x; toast := toast w;
     opened := opened w; clipboard := clipboard w |}.

Definition with_toast (x : option Toast.t) (w : World) : World :=
  {| payments := payments w; revalidations := revalidations w;
     requests := requests w; alerts := alerts w; toast := x;
     opened := opened w; clipboard := clipboard w |}.

Definition with_requests (x : list Request.t) (w : World) : World :=
  {| payments := payments w; revalidations := revalidations w;
     requests := x; alerts := alerts w; toast := toast w;
     opened := opened w; clipboard := clipboard w |}.

Definition with_revalidations (x : nat) (w : World) : World :=
  {| payments := payments w; revalidations := x;
     requests := requests w; alerts := alerts w; toast := toast w;
     opened := opened w; clipboard := clipboard w |}.

Definition with_opened (x : list string) (w : World) : World :=
  {| payments := payments w; revalidations := revalidations w;
     requests := requests w; alerts := alerts w; toast := toast w;
     opened := x; clipboard := clipboard w |}.

Definition with_clipboard (x : option string) (w : World) : World :=
  {| payments := payments w; revalidations := revalidations w;
     requests := requests w; alerts := alerts w; toast := toast w;
     opened := opened w; clipboard := x |}.

(** [await confirmAlert(options)], for a host whose dialog settles with the
    user's answer. *)
Definition confirmAlert (options : Alert.t) : Async bool := λ env w,
  (with_alerts (alerts w ++ [options]) w, inr (userConfirms env options)).

(** [await showToast(options)]; the toast it returns is the one on screen. *)
Definition showToast (options : Toast.t) : Async () :=
  update (with_toast (Some options)).

(** Assignments to the fields of the toast on screen. *)
Definition set_toast_style (x : ToastStyle) : Async () :=
  update (λ w, with_toast
    ((λ t, {| Toast.style := x; Toast.title := Toast.title t;
              Toast.message := Toast.message t |}) <$> toast w) w).

Definition set_toast_title (x : string) : Async () :=
  update (λ w, with_toast
    ((λ t, {| Toast.style := Toast.style t; Toast.title := x;
              Toast.message := Toast.message t |}) <$> toast w) w).

Definition set_toast_message (x : string) : Async () :=
  update (λ w, with_toast
    ((λ t, {| Toast.style := Toast.style t; Toast.title := Toast.title t;
              Toast.message := Some x |}) <$> toast w) w).

(** [await fetch(url, init)] *)
Definition fetch (request : Request.t) : Async Response.t := λ env w,
  settle (network env request) env (with_requests (requests w ++ [request]) w).

(** [await response.json()] *)
Definition response_json (response : Response.t) : Async Json :=
  settle (Response.json response).

Definition revalidate : Async () :=
  update (λ w, with_revalidations (S (revalidations w)) w).

(** *** Reading the error envelope *)

(** The value bound to [k] among the properties of an object, each of which
    is listed once. *)
Fixpoint lookup_field (k : string) (fields : list (string * Json)) : option Json :=
  match fields with
  | [] => None
  | (k', v) :: rest => if String.eqb k' k then Some v else lookup_field k rest
  end.

(** [v.k] for a property name that no primitive or array carries, such as
    [detail] and [title]: [None] is [undefined]; reading from [null] throws. *)
Definition get_property {jsonText : JsonText} (v : Json) (k : string) : Thrown + option Json :=
  match v with
  | JNull => inl (ErrorObject (nullPropertyMessage k))
  | JObj fields => inr (lookup_field k fields)
  | _ => inr None
  end.

(** JavaScript truthiness; [None] is [undefined]. *)
Definition truthy (v : option Json) : bool :=
  match v with
  | None => false
  | Some JNull => false
  | Some (JBool b) => b
  | Some (JNum n) => negb (n =? 0)%float && negb (is_nan n)
  | Some (JStr s) => truthy_string s
  | Some (JArr _) => true
  | Some (JObj _) => true
  end.

(** [String(v)], the conversion [new Error(v)] applies to its argument. *)
Definition string_of {jsonText : JsonText} (v : Json) : string :=
  match v with
  | JStr s => s
  | _ => ToString v
  end.

(** [`HTTP error! Status: ${status}`] *)
Definition httpErrorMessage (status : N) : string :=
  "HTTP error! Status: " +:+ pretty status.

(** [errorData.detail || errorData.title || `HTTP error! Status: ${response.status}`] *)
Definition errorMessage {jsonText : JsonText} (errorData : Json) (response : Response.t)
  : Async Json :=
  detail ← settle (get_property errorData "detail");
  if truthy detail then mret (default JNull detail)
  else
    title ← settle (get_property errorData "title");
    if truthy title then mret (default JNull title)
    else mret (JStr (httpErrorMessage (Response.status response))).

(** *** The refund workflow *)

Definition dquote : string := String (Ascii.ascii_of_nat 34) EmptyString.

Section Refund.
Context {numbers : Numbers} {jsonText : JsonText}.

Definition refundAlert (payment : Payment) : Alert.t :=
  {| Alert.title := "Refund Payment";
     Alert.message :=
       "Are you sure you want to refund "
       +:+ formatCurrency (value (amount payment)) (currency (amount payment))
       +:+ " for " +:+ dquote
       +:+ (if truthy_string (description payment) then description payment
            else "No description")
       +:+ dquote +:+ "?";
     Alert.primaryAction := "Refund" |}.

Definition refundRequest (accessToken : string) (payment : Payment) : Request.t :=
  {| Request.url := "https://api.mollie.com/v2/payments/" +:+ id payment +:+ "/refunds";
     Request.method := "POST";
     Request.headers := [("Authorization", "Bearer " +:+ accessToken);
                         ("Content-Type", "application/json")];
     Request.body :=
       JSON_stringify
         (JObj [("amount",
                 JObj [("currency", JStr (currency (amount payment)));
                       ("value", JStr (value (amount payment)))])]) |}.

Definition handleRefund (accessToken : string) (payment : Payment) : Async () :=
  confirmed ← confirmAlert (refundAlert payment);
  if negb confirmed then mret ()
  else
    showToast {| Toast.style := Animated; Toast.title := "Processing refund...";
                 Toast.message := None |};;
    try_catch
      (response ← fetch (refundRequest accessToken payment);
       (if negb (Response.ok response) then
          errorData ← response_json response;
          message ← errorMessage errorData response;
          throw (ErrorObject (string_of message))
        else mret ());;
       set_toast_style Success;;
       set_toast_title "Refund Successful";;
       set_toast_message
         ("Refunded " +:+ formatCurrency (value (amount payment))
                                         (currency (amount payment)));;
       revalidate)
      (λ error,
         set_toast_style Failure;;
         set_toast_title "Refund Failed";;
         set_toast_message
           match error with
           | ErrorObject message => message
           | NotAnError => "An unknown error occurred."
           end).

(** *** The rows of the list *)

Inductive Action :=
| OpenInBrowser (url title : string)
| (** the action titled "Refund Payment", whose [onAction] is
      [() => handleRefund(payment)] *)
  RefundPayment (payment : Payment)
| CopyToClipboard (title content : string).

(** The children of a row's [ActionPanel]. *)
Definition itemActions (payment : Payment) : list Action :=
  [OpenInBrowser (dashboardHref payment) "Open in Mollie Dashboard"]
  ++ (if String.eqb (status payment) "paid" then [RefundPayment payment] else [])
  ++ [CopyToClipboard "Copy Payment Id to Clipboard" (id payment);
      CopyToClipboard "Copy Amount to Clipboard"
        (formatCurrency (value (amount payment)) (currency (amount payment)))].

(** What happens when the user runs an action of a row. *)
Definition perform (accessToken : string) (action : Action) : Async () :=
  match action with
  | OpenInBrowser url _ => update (λ w, with_opened (opened w ++ [url]) w)
  | RefundPayment payment => handleRefund accessToken payment
  | CopyToClipboard _ content => update (with_clipboard (Some content))
  end.

(** **** The specification's reading of the workflow's outcome *)

(** The refund did not succeed: the request failed or the response is not 2xx. *)
Definition refundFails (outcome : Thrown + Response.t) : Prop :=
  match outcome with
  | inl _ => True
  | inr response => Response.ok response = false
  end.

(** The refund did not succeed, in the words of the specification: the
    request was rejected, or the status of the response is not 2xx. *)
Definition NotSuccessful (outcome : Thrown + Response.t) : Prop :=
  match outcome with
  | inl _ => True
  | inr response => ¬ (200 ≤ Response.status response ≤ 299)%N
  end.

(** A JSON value is truthy: [true], a number other than zero, a string other
    than the empty one, an array or an object. *)
Inductive Truthy : Json → Prop :=
| Truthy_true : Truthy (JBool true)
| Truthy_number n :
    (n =? 0)%float = false → (n =? n)%float = true → Truthy (JNum n)
| Truthy_string s : s ≠ EmptyString → Truthy (JStr s)
| Truthy_array items : Truthy (JArr items)
| Truthy_object fields : Truthy (JObj fields).

(** [v] is the value of the property [k] among the properties [fields]. *)
Inductive OwnProperty : list (string * Json) → string → Json → Prop :=
| OwnProperty_here k v rest : OwnProperty ((k, v) :: rest) k v
| OwnProperty_later k k' v v' rest :
    k' ≠ k → OwnProperty rest k v → OwnProperty ((k', v') :: rest) k v.

(** The JSON value [errorData] is an object whose property [k] is [v]. *)
Definition HasProperty (errorData : Json) (k : string) (v : Json) : Prop :=
  ∃ fields, errorData = JObj fields ∧ OwnProperty fields k v.

(** The text of a message made from [v]: a string as it is, another value
    as the host prints it. *)
Inductive MessageText : Json → string → Prop :=
| MessageText_string s : MessageText (JStr s) s
| MessageText_other v : (∀ s, v ≠ JStr s) → MessageText v (ToString v).

Definition successToast (payment : Payment) : Toast.t :=
  {| Toast.style := Success; Toast.title := "Refund Successful";
     Toast.message :=
       Some ("Refunded " +:+ formatCurrency (value (amount payment))
                                            (currency (amount payment))) |}.

Definition failureToast (message : string) : Toast.t :=
  {| Toast.style := Failure; Toast.title := "Refund Failed";
     Toast.message := Some message |}.

(** The world once the dialog is confirmed, the progress toast is on screen
    and the request is sent. *)
Definition afterRequest (accessToken : string) (payment : Payment) (w : World)
  : World :=
  with_requests (requests w ++ [refundRequest accessToken payment])
    (with_toast (Some {| Toast.style := Animated;
                         Toast.title := "Processing refund...";
                         Toast.message := None |})
       (with_alerts (alerts w ++ [refundAlert payment]) w)).

(** [error instanceof Error ? error.message : "An unknown error occurred."] *)
Definition thrownMessage (error : Thrown) : string :=
  match error with
  | ErrorObject message => message
  | NotAnError => "An unknown error occurred."
  end.

(** [v.k] where it does not throw. *)
Definition field (v : Json) (k : string) : option Json :=
  match v with
  | JObj fields => lookup_field k fields
  | _ => None
  end.

(** What the [try] block throws for a response that is not 2xx. *)
Definition errorOfResponse (response : Response.t) : Thrown :=
  match Response.json response with
  | inl parseError => parseError
  | inr JNull => ErrorObject (nullPropertyMessage "detail")
  | inr errorData =>
      if truthy (field errorData "detail")
      then ErrorObject (string_of (default JNull (field errorData "detail")))
      else if truthy (field errorData "title")
      then ErrorObject (string_of (default JNull (field errorData "title")))
      else ErrorObject (httpErrorMessage (Response.status response))
  end.

(** What the [catch] block receives when the refund does not succeed. *)
Definition errorOfOutcome (outcome : Thrown + Response.t) : Thrown :=
  match outcome with
  | inl rejection => rejection
  | inr response => errorOfResponse response
  end.

End Refund.

Module ListItem.
Record t := {
    key : string;
    title : string;
    subtitle : DateTimeText;
    amountText : string;
    actions : list Action
  }.
End ListItem.

(** The rows rendered for the visible payments. *)
Definition listItems {dates : Dates} {numbers : Numbers} (now : Z) (visible : list Payment)
  : list ListItem.t :=
  map (λ payment,
         {| ListItem.key := id payment;
            ListItem.title :=
              if truthy_string (description payment) then description payment
              else "No description";
            ListItem.subtitle := formatDateTime now (createdAt payment);
            ListItem.amountText :=
              formatCurrency (value (amount payment)) (currency (amount payment));
            ListItem.actions := itemActions payment |})
      visible.

(** *** Status tags and method icons *)

Inductive Color := Green | Blue | Orange | Red | SecondaryText | Purple | Magenta.

Inductive Icon := BankNote | Dot | Warning | ArrowCounterClockwise | ArrowNe.

Module Tag.
Record t := { value : string; color : Color }.
End Tag.

Definition getStatusTag (status : string) : Tag.t :=
  if String.eqb status "paid" then {| Tag.value := "Paid"; Tag.color := Green |}
  else if String.eqb status "open" then {| Tag.value := "Open"; Tag.color := Blue |}
  else if String.eqb status "pending" then
    {| Tag.value := "Pending"; Tag.color := Orange |}
  else if String.eqb status "failed" then {| Tag.value := "Failed"; Tag.color := Red |}
  else if String.eqb status "expired" then
    {| Tag.value := "Expired"; Tag.color := SecondaryText |}
  else if String.eqb status "canceled" then
    {| Tag.value := "Canceled"; Tag.color := SecondaryText |}
  else if String.eqb status "refunded" then
    {| Tag.value := "Refunded"; Tag.color := Purple |}
  else if String.eqb status "refund-pending" then
    {| Tag.value := "Refund Pending"; Tag.color := Magenta |}
  else {| Tag.value := status; Tag.color := SecondaryText |}.

(** An image of the extension's assets or one of the host's icons. *)
Inductive Image :=
| ImageSource (source : string)
| ImageIcon (icon : Icon).

Definition getPaymentMethodIcon {strings : Strings} (method : option string) : Image :=
  match method with
  | None => ImageIcon BankNote
  | Some method =>
      if negb (truthy_string method) then ImageIcon BankNote
      else
        let lower := toLowerCase method in
        if String.eqb lower "creditcard" then ImageSource "payment-methods/creditcard.png"
        else if String.eqb lower "ideal" then ImageSource "payment-methods/ideal.png"
        else if String.eqb lower "bancontact" then
          ImageSource "payment-methods/bancontact.png"
        else if String.eqb lower "banktransfer" then
          ImageSource "payment-methods/banktransfer.png"
        else if String.eqb lower "paypal" then ImageSource "payment-methods/paypal.png"
        else if String.eqb lower "applepay" then
          ImageSource "payment-methods/applepay.png"
        else if String.eqb lower "klarnapaylater" then
          ImageSource "payment-methods/klarna.png"
        else if String.eqb lower "klarnasliceit" then
          ImageSource "payment-methods/klarna.png"
        else if String.eqb lower "giftcard" then
          ImageSource "payment-methods/giftcard.png"
        else if String.eqb lower "voucher" then ImageSource "payment-methods/voucher.png"
        else if String.eqb lower "sofort" then ImageSource "payment-methods/sofort.png"
        else if String.eqb lower "eps" then ImageSource "payment-methods/eps.png"
        else if String.eqb lower "giropay" then ImageSource "payment-methods/giropay.png"
        else if String.eqb lower "belfius" then ImageSource "payment-methods/belfius.png"
        else if String.eqb lower "kbc" then ImageSource "payment-methods/kbc.png"
        else if String.eqb lower "przelewy24" then
          ImageSource "payment-methods/przelewy24.png"
        else if String.eqb lower "mybank" then ImageSource "payment-methods/mybank.png"
        else ImageIcon BankNote
  end.

(** The files [assets/payment-methods/README.md] asks for. *)
Definition requiredIcons : list string :=
  ["creditcard.png"; "ideal.png"; "bancontact.png"; "banktransfer.png";
   "paypal.png"; "applepay.png"; "klarna.png"; "giftcard.png"; "voucher.png";
   "sofort.png"; "eps.png"; "giropay.png"; "belfius.png"; "kbc.png";
   "przelewy24.png"; "mybank.png"].

(** The icon and the first accessory of a row. *)
Definition itemIcon {strings : Strings} (payment : Payment) : Image :=
  getPaymentMethodIcon (method payment).

Definition itemStatusTag (payment : Payment) : Tag.t :=
  getStatusTag (status payment).

(** *** The filter dropdown and the empty view *)

Module DropdownItem.
Record t := { title : string; value : string; tintColor : option Color }.
End DropdownItem.

(** The items of the [List.Dropdown], in the order they are written. *)
Definition dropdownItems : list DropdownItem.t :=
  [{| DropdownItem.title := "All Payments"; DropdownItem.value := "all";
      DropdownItem.tintColor := None |};
   {| DropdownItem.title := "Paid"; DropdownItem.value := "paid";
      DropdownItem.tintColor := Some Green |};
   {| DropdownItem.title := "Open"; DropdownItem.value := "open";
      DropdownItem.tintColor := Some Blue |};
   {| DropdownItem.title := "Pending"; DropdownItem.value := "pending";
      DropdownItem.tintColor := Some Orange |};
   {| DropdownItem.title := "Failed"; DropdownItem.value := "failed";
      DropdownItem.tintColor := Some Red |};
   {| DropdownItem.title := "Refunded"; DropdownItem.value := "refunded";
      DropdownItem.tintColor := Some Purple |};
   {| DropdownItem.title := "Refund Pending"; DropdownItem.value := "refund-pending";
      DropdownItem.tintColor := Some Magenta |};
   {| DropdownItem.title := "Expired"; DropdownItem.value := "expired";
      DropdownItem.tintColor := Some SecondaryText |};
   {| DropdownItem.title := "Canceled"; DropdownItem.value := "canceled";
      DropdownItem.tintColor := Some SecondaryText |}].

(** The literals of the type of [Payment.status]. *)
Definition paymentStatuses : list string :=
  ["paid"; "open"; "pending"; "failed"; "expired"; "canceled"; "refunded";
   "refund-pending"].

Module EmptyView.
Record t := { title : string; description : string; icon : Icon }.
End EmptyView.

(** [!isLoading && filteredPayments.length === 0 && <List.EmptyView ... />] *)
Definition emptyView (isLoading : bool) (filteredPayments : list Payment)
    (statusFilter : string) : option EmptyView.t :=
  if negb isLoading && (length filteredPayments =? 0)%nat then
    Some {| EmptyView.title := "No Payments Found";
            EmptyView.description :=
              if String.eqb statusFilter "all"
              then "You don't have any payments yet."
              else "No " +:+ statusFilter
                   +:+ " payments found. Try changing the filter.";
            EmptyView.icon := BankNote |}
  else None.

(** What [PaymentsList] renders from the state of the fetch and the selected
    filter. *)
Module ListView.
Record t := {
  isLoading : bool;
  items : list ListItem.t;
  empty : option EmptyView.t
}.
End ListView.

Definition render {dates : Dates} {numbers : Numbers} (now : Z)
    (data : option (list Payment)) (isLoading : bool) (statusFilter : string)
  : ListView.t :=
  let filteredPayments := filteredPayments (allPayments data) statusFilter in
  {| ListView.isLoading := isLoading;
     ListView.items := listItems now filteredPayments;
     ListView.empty := emptyView isLoading filteredPayments statusFilter |}.

End PaymentsList.

(** ** The authorization flow of the two commands *)
Module Authorization.

(** A value [authorize()] rejects with, as far as [Command] looks at it: its
    truthiness, its [message] property, and whether reading a property of it
    throws. *)
Inductive Rejection :=
| Truthy (message : option string)   (* an [Error], or another truthy value *)
| Falsy (nullish : bool).            (* [null] or [undefined] when [nullish] *)

(** The three [useState] cells of [Command]. *)
Record State := {
  accessToken : option string;
  isLoading : bool;
  error : option Rejection
}.

Definition initial : State :=
  {| accessToken := None; isLoading := true; error := None |}.

(** What [doAuthorize] does, one after the other. *)
Inductive Step :=
| setAccessToken (token : string)
| setError (err : Rejection)
| setIsLoading (b : bool)
| consoleError (err : Rejection)
| showToast (toast : PaymentsList.Toast.t).

(** [doAuthorize], given what [authorize()] settles to.  Reading [message]
    of [null] or [undefined] throws inside [catch]; [finally] still runs. *)
Definition doAuthorize (outcome : Rejection + string) : list Step :=
  match outcome with
  | inr token => [setAccessToken token; setIsLoading false]
  | inl err =>
      [consoleError err; setError err]
      ++ match err with
         | Truthy message =>
             [showToast {| PaymentsList.Toast.style := PaymentsList.Failure;
                           PaymentsList.Toast.title := "Authorization Failed";
                           PaymentsList.Toast.message := message |}]
         | Falsy false =>
             [showToast {| PaymentsList.Toast.style := PaymentsList.Failure;
                           PaymentsList.Toast.title := "Authorization Failed";
                           PaymentsList.Toast.message := None |}]
         | Falsy true => []
         end
      ++ [setIsLoading false]
  end.

(** The effect of a step on the state cells. *)
Definition step (st : State) (s : Step) : State :=
  match s with
  | setAccessToken token =>
      {| accessToken := Some token; isLoading := isLoading st; error := error st |}
  | setError err =>
      {| accessToken := accessToken st; isLoading := isLoading st; error := Some err |}
  | setIsLoading b =>
      {| accessToken := accessToken st; isLoading := b; error := error st |}
  | consoleError _ => st
  | showToast _ => st
  end.

(** The states [Command] is rendered in: the initial one and the one after
    each step. *)
Fixpoint states (st : State) (steps : list Step) : list State :=
  match steps with
  | [] => [st]
  | s :: rest => st :: states (step st s) rest
  end.

Definition finalState (outcome : Rejection + string) : State :=
  fold_left step (doAuthorize outcome) initial.

(** The toasts shown by a run. *)
Definition toasts (steps : list Step) : list PaymentsList.Toast.t :=
  omap (λ s, match s with showToast t => Some t | _ => None end) steps.

(** [if (error)] *)
Definition error_truthy (e : option Rejection) : bool :=
  match e with
  | Some (Truthy _) => true
  | _ => false
  end.

(** [error.message] of a truthy error. *)
Definition error_message (e : option Rejection) : option string :=
  match e with
  | Some (Truthy message) => message
  | _ => None
  end.

(** What [Command] of [payments-list.tsx] returns. *)
Inductive ListCommandView :=
| AuthorizationFailed (description : option string)
| ListLoading
| (** [<PaymentsList accessToken={accessToken!} />] *)
  Payments (accessToken : option string).

Definition renderListCommand (st : State) : ListCommandView :=
  if error_truthy (error st) then AuthorizationFailed (error_message (error st))
  else if isLoading st then ListLoading
  else Payments (accessToken st).

(** What [Command] of [transactionsMenuBar.tsx] returns. *)
Inductive MenuCommandView :=
| AuthFailed
| MenuLoading
| (** [<TransactionsMenuBar accessToken={accessToken!} />] *)
  Transactions (accessToken : option string).

Definition renderMenuCommand (st : State) : MenuCommandView :=
  if error_truthy (error st) then AuthFailed
  else if isLoading st then MenuLoading
  else Transactions (accessToken st).

End Authorization.

(** ** Hosts and data for the examples *)
Module Examples.

(** A zone without clock changes, [offset] milliseconds ahead of UTC. *)
Definition fixedZone (parse : string → TimeValue) (offset : Z) : Dates.
Proof.
  refine {| Date_parse := parse; LocalTZA := λ _ _, offset |}.
  - intros t. unfold startOfDayOf, utcOf, dayOf, localTimeOf, msPerDay.
    Z.div_mod_to_equations. lia.
  - intros t. unfold startOfDayOf, utcOf, dayOf, localTimeOf.
    replace (((t + offset) `div` msPerDay * msPerDay - offset + offset))%Z
      with ((t + offset) `div` msPerDay * msPerDay)%Z by lia.
    by apply Z.div_mul.
Defined.

(** Europe/Amsterdam in 2026: one hour ahead of UTC, two hours from
    2026-03-29T01:00Z to 2026-10-25T01:00Z.  A local time the clock skips or
    shows twice is read with the offset before the change. *)
Definition amsterdamTZA (t : Z) (isUTC : bool) : Z :=
  if isUTC then
    if (t <? 1774746000000)%Z then 3600000
    else if (t <? 1792890000000)%Z then 7200000
    else 3600000
  else
    if (t - 3600000 <? 1774746000000)%Z then 3600000
    else if (t - 7200000 <? 1774746000000)%Z then 3600000
    else if (t - 7200000 <? 1792890000000)%Z then 7200000
    else 3600000.

Definition amsterdamZone (parse : string → TimeValue) : Dates.
Proof.
  refine {| Date_parse := parse; LocalTZA := amsterdamTZA |}.
  - intros t. unfold startOfDayOf, utcOf, dayOf, localTimeOf, amsterdamTZA, msPerDay.
    repeat match goal with
           | |- context [(?a <? ?b)%Z] => destruct (Z.ltb_spec a b)
           end; Z.div_mod_to_equations; lia.
  - intros t. unfold startOfDayOf, utcOf, dayOf, localTimeOf, amsterdamTZA, msPerDay.
    repeat match goal with
           | |- context [(?a <? ?b)%Z] => destruct (Z.ltb_spec a b)
           end; Z.div_mod_to_equations; lia.
Defined.

(** Amsterdam on 2026-10-25, the day the clock goes back: a payment created
    at 00:30 in summer time, and the evening of that day. *)
Definition amsterdam : Dates :=
  amsterdamZone (λ s,
    if decide (s = "2026-10-25T00:30:00+02:00") then Some 1792881000000%Z
    else if decide (s = "2026-10-25T00:00:00+02:00") then Some 1792879200000%Z
    else if decide (s = "2026-10-24T23:30:00+02:00") then Some 1792877400000%Z
    else if decide (s = "2026-10-26T00:00:00+01:00") then Some 1792969200000%Z
    else None).

(** 2026-10-25T23:30:00+01:00 *)
Definition clockChangeEvening : Z := 1792967400000.

(** Central European Time, and the time values of the timestamps used below. *)
Definition cet : Dates :=
  fixedZone (λ s,
    if decide (s = "2026-11-03T00:00:00+01:00") then Some 1793660400000%Z
    else if decide (s = "2026-11-03T09:13:37+01:00") then Some 1793693617000%Z
    else if decide (s = "2026-11-03T11:20:05+01:00") then Some 1793701205000%Z
    else if decide (s = "2026-11-02T18:45:00+01:00") then Some 1793641500000%Z
    else None) 3600000.

(** 2026-11-03T14:30:00+01:00 *)
Definition afternoon : Z := 1793712600000.

(** The same zone, knowing two timestamps of the day after. *)
Definition cetTomorrow : Dates :=
  fixedZone (λ s,
    if decide (s = "2026-11-04T00:00:00+01:00") then Some 1793746800000%Z
    else if decide (s = "2026-11-04T08:00:00+01:00") then Some 1793775600000%Z
    else None) 3600000.

(** Stand-ins for [parseFloat] and [Intl.NumberFormat] on the amounts used
    below. *)
Definition numbers : Numbers := {|
  parseFloat s :=
    if decide (s = "10.00") then 10%float
    else if decide (s = "5.50") then 5.5%float
    else if decide (s = "3.00") then 3%float
    else nan;
  NumberFormat_currency cur v :=
    cur +:+ " " +:+
    (if (v =? 10)%float then "10,00"
     else if (v =? 5.5)%float then "5,50"
     else if (v =? 3)%float then "3,00"
     else if (v =? 15.5)%float then "15,50"
     else if (v =? 0)%float then "0,00"
     else "NaN")
|}.

(** Enough of [JSON.stringify] for the refund body: an object of objects and
    of strings that need no escaping. *)
Fixpoint stringify (v : Json) : string :=
  match v with
  | JStr s => PaymentsList.dquote +:+ s +:+ PaymentsList.dquote
  | JObj fields =>
      "{" +:+
      (fix members (l : list (string * Json)) : string :=
         match l with
         | [] => EmptyString
         | [(k, x)] =>
             PaymentsList.dquote +:+ k +:+ PaymentsList.dquote +:+ ":" +:+ stringify x
         | (k, x) :: rest =>
             PaymentsList.dquote +:+ k +:+ PaymentsList.dquote +:+ ":" +:+ stringify x
             +:+ "," +:+ members rest
         end) fields
      +:+ "}"
  | _ => "null"
  end.

Definition jsonText : JsonText := {|
  JSON_stringify := stringify;
  ToString _ := "[object Object]";
  nullPropertyMessage k := "Cannot read properties of null (reading '" +:+ k +:+ "')"
|}.

Definition menuPayment (i v cur st created : string) : TransactionsMenuBar.Payment :=
  {| TransactionsMenuBar.id := i;
     TransactionsMenuBar.amount := {| value := v; currency := cur |};
     TransactionsMenuBar.description := "Order " +:+ i;
     TransactionsMenuBar.status := st;
     TransactionsMenuBar.createdAt := created |}.

Definition listPayment (i v cur st created : string) : PaymentsList.Payment :=
  {| PaymentsList.id := i;
     PaymentsList.amount := {| value := v; currency := cur |};
     PaymentsList.description := "Order " +:+ i;
     PaymentsList.status := st;
     PaymentsList.method := Some "ideal";
     PaymentsList.createdAt := created;
     PaymentsList.dashboardHref := "https://my.mollie.com/dashboard/payments/" +:+ i |}.

(** Lower-casing of the letters A to Z, and the Dutch dates of the examples. *)
Definition lowerAscii (c : Ascii.ascii) : Ascii.ascii :=
  let n := Ascii.nat_of_ascii c in
  if (65 <=? n)%nat && (n <=? 90)%nat then Ascii.ascii_of_nat (n + 32) else c.

Fixpoint lowerString (s : string) : string :=
  match s with
  | EmptyString => EmptyString
  | String c rest => String (lowerAscii c) (lowerString rest)
  end.

Definition strings : Strings := {|
  toLowerCase := lowerString;
  toLocaleDateString t :=
    if decide (t = Some 1793660400000%Z) then "3-11-2026" else "Invalid Date"
|}.

Definition paidToday : PaymentsList.Payment :=
  listPayment "tr_1" "10.00" "EUR" "paid" "2026-11-03T09:13:37+01:00".

Definition emptyWorld : PaymentsList.World :=
  {| PaymentsList.payments := [paidToday];
     PaymentsList.revalidations := 0;
     PaymentsList.requests := [];
     PaymentsList.alerts := [];
     PaymentsList.toast := None;
     PaymentsList.opened := [];
     PaymentsList.clipboard := None |}.

(** A user who answers every dialog with [answer] and a server that settles
    every request with [outcome]. *)
Definition scripted (answer : bool)
    (outcome : PaymentsList.Thrown + PaymentsList.Response.t)
  : PaymentsList.Environment :=
  {| PaymentsList.userConfirms _ := answer;
     PaymentsList.network _ := outcome |}.

Definition created : PaymentsList.Response.t :=
  {| PaymentsList.Response.status := 201;
     PaymentsList.Response.json := inr (JObj [("resource", JStr "refund")]) |}.

Definition insufficientBalance : PaymentsList.Response.t :=
  {| PaymentsList.Response.status := 422;
     PaymentsList.Response.json :=
       inr (JObj [("status", JNum 422%float);
                  ("title", JStr "Unprocessable Entity");
                  ("detail", JStr "insufficient balance")]) |}.

Definition titleOnly : PaymentsList.Response.t :=
  {| PaymentsList.Response.status := 404;
     PaymentsList.Response.json :=
       inr (JObj [("status", JNum 404%float);
                  ("detail", JStr EmptyString);
                  ("title", JStr "Not Found")]) |}.

Definition bareError : PaymentsList.Response.t :=
  {| PaymentsList.Response.status := 500;
     PaymentsList.Response.json := inr (JObj [("status", JNum 500%float)]) |}.

Definition badGateway : PaymentsList.Response.t :=
  {| PaymentsList.Response.status := 502;
     PaymentsList.Response.json :=
       inl (PaymentsList.ErrorObject "Unexpected token < in JSON at position 0") |}.

End Examples.

(** * Properties *)

(** ** Local days *)
Section LocalDays.
Context {dates : Dates}.

Lemma setHours0_localMidnight (t : Z) :
  setHours0 (Some t) = Some (localMidnight t).
Proof. reflexivity. Qed.

Lemma localDay_localMidnight (now : Z) :
  localDay (localMidnight now) = localDay now.
Proof. apply startOfDay_day. Qed.

Lemma localMidnight_inj (a b : Z) :
  localMidnight a = localMidnight b ↔ localDay a = localDay b.
Proof.
  split; intros E.
  - by rewrite <- (localDay_localMidnight a), E, localDay_localMidnight.
  - unfold localMidnight. by rewrite E.
Qed.

End LocalDays.

(** ** Lists *)

(** A filter by a boolean test selects what the stated property selects. *)
Lemma List_filter_decide {A} (f : A → bool) (P : A → Prop)
    `{!∀ x, Decision (P x)} (l : list A) :
  (∀ x, f x = true ↔ P x) → List.filter f l = filter P l.
Proof.
  intros Hf. induction l as [|x l IH]; [done|].
  cbn [List.filter]. rewrite filter_cons, IH.
  destruct (f x) eqn:E, (decide (P x)) as [HP|HP]; try done.
  - destruct HP. by apply Hf.
  - apply Hf in HP. congruence.
Qed.

(** ** Today's revenue *)
Section TodaysRevenue.
Import TransactionsMenuBar.
Context {dates : Dates} {numbers : Numbers}.

Lemma todayPaidPayments_Qualifies (now : Z) (payments : list Payment) :
  todayPaidPayments now payments = filter (Qualifies now) payments.
Proof.
  apply List_filter_decide. intros p. unfold Qualifies, todayTimestamp.
  rewrite setHours0_localMidnight, andb_true_iff, String.eqb_eq.
  destruct (Date_parse (createdAt p)) as [t|]; cbn.
  - by rewrite bool_decide_eq_true.
  - intuition discriminate.
Qed.

Lemma total_sumOfValues (now : Z) (payments : list Payment) :
  total now payments = sumOfValues (filter (Qualifies now) payments).
Proof. unfold total. by rewrite todayPaidPayments_Qualifies. Qed.

Lemma isCurrencyCode_truthy (c : string) :
  isCurrencyCode c = true → truthy_string c = true.
Proof. by destruct c. Qed.

Lemma aggregateCurrency_first (now : Z) (payments : list Payment) :
  Forall (λ p, isCurrencyCode (currency (amount p)) = true) payments →
  aggregateCurrency now payments
  = firstCurrency (filter (Qualifies now) payments).
Proof.
  intros Hc. unfold aggregateCurrency. rewrite todayPaidPayments_Qualifies.
  destruct (filter _ _) as [|p rest] eqn:Hf; [done|]. cbn.
  assert (p ∈ payments) as Hp.
  { assert (p ∈ filter (Qualifies now) payments) as Hin
      by (rewrite Hf; left).
    by apply list_elem_of_filter in Hin as [_ ?]. }
  rewrite Forall_forall in Hc.
  by rewrite (isCurrencyCode_truthy _ (Hc p Hp)).
Qed.

(** C1: for a collection whose amounts carry ISO-4217 currency codes, the
    payments counted are exactly the paid ones created at or after today's
    local midnight, in their order; the count is their number, the total the
    sum of their parsed values, the currency that of the first of them, and
    when none counts the total is zero in "EUR" and the count 0. *)
Theorem aggregateToday_counts_paid_since_midnight
    (now : Z) (payments : list Payment) :
  Forall (λ p, isCurrencyCode (currency (amount p)) = true) payments →
  let counted := filter (Qualifies now) payments in
  todayPaidPayments now payments = counted
  ∧ aggregateToday now (Some payments)
    = {| totalAmount :=
           formatCurrency (sumOfValues counted) (firstCurrency counted);
         transactionCount := length counted |}
  ∧ (counted = [] →
     aggregateToday now (Some payments)
     = {| totalAmount := formatCurrency 0%float "EUR"; transactionCount := 0 |}).
Proof.
  intros Hc. cbn zeta. split; [apply todayPaidPayments_Qualifies|].
  unfold aggregateToday.
  rewrite total_sumOfValues, aggregateCurrency_first,
    todayPaidPayments_Qualifies by done.
  split; [done|]. by intros ->.
Qed.

End TodaysRevenue.

(** The scenario of two paid payments of today, of 10.00 and 5.50 EUR, and one
    of yesterday: 15.50 EUR in 2 transactions. *)
Example aggregateToday_two_of_three :
  let payments :=
    [Examples.menuPayment "tr_1" "10.00" "EUR" "paid" "2026-11-03T09:13:37+01:00";
     Examples.menuPayment "tr_2" "5.50" "EUR" "paid" "2026-11-03T11:20:05+01:00";
     Examples.menuPayment "tr_3" "3.00" "EUR" "paid" "2026-11-02T18:45:00+01:00"] in
  TransactionsMenuBar.total (dates := Examples.cet) (numbers := Examples.numbers)
    Examples.afternoon payments = 15.5%float
  ∧ TransactionsMenuBar.aggregateToday
      (dates := Examples.cet) (numbers := Examples.numbers)
      Examples.afternoon (Some payments)
    = {| TransactionsMenuBar.totalAmount := "EUR 15,50";
         TransactionsMenuBar.transactionCount := 2 |}.
Proof. split; vm_compute; reflexivity. Qed.

(** On the day the clock goes back in Amsterdam, seen from 23:30 in winter
    time: the payment of 00:30 in summer time is counted, the one of 23:30 the
    evening before is not. *)
Lemma aggregateToday_counts_paid_since_midnight_witness :
  let payments :=
    [Examples.menuPayment "tr_1" "5.50" "EUR" "paid" "2026-10-24T23:30:00+02:00";
     Examples.menuPayment "tr_2" "10.00" "EUR" "paid" "2026-10-25T00:30:00+02:00"] in
  TransactionsMenuBar.aggregateToday
    (dates := Examples.amsterdam) (numbers := Examples.numbers)
    Examples.clockChangeEvening (Some payments)
  = {| TransactionsMenuBar.totalAmount := "EUR 10,00";
       TransactionsMenuBar.transactionCount := 1 |}.
Proof.
  cbn zeta.
  destruct (aggregateToday_counts_paid_since_midnight
              (dates := Examples.amsterdam) (numbers := Examples.numbers)
              Examples.clockChangeEvening
              [Examples.menuPayment "tr_1" "5.50" "EUR" "paid"
                 "2026-10-24T23:30:00+02:00";
               Examples.menuPayment "tr_2" "10.00" "EUR" "paid"
                 "2026-10-25T00:30:00+02:00"])
    as (_ & Ha & _).
  - repeat constructor.
  - rewrite Ha. vm_compute. reflexivity.
Defined.

(** ** Timestamps in the list *)
Section Timestamps.
Import PaymentsList.
Context {dates : Dates}.

Lemma formatDateTime_valid (now t : Z) (dateString : string) :
  Date_parse dateString = Some t →
  formatDateTime now dateString
  = if decide (localDay t = localDay now) then TimeOfDay (Some t)
    else DayAndMonth (Some t).
Proof.
  intros Ht. unfold formatDateTime. rewrite Ht, !setHours0_localMidnight.
  unfold time_strict_eq.
  case_decide as Hd; rewrite <- localMidnight_inj in Hd.
  - by rewrite bool_decide_eq_true_2.
  - by rewrite bool_decide_eq_false_2.
Qed.

(** An invalid timestamp is never today: it takes the date branch. *)
Lemma formatDateTime_invalid (now : Z) (dateString : string) :
  Date_parse dateString = None →
  formatDateTime now dateString = DayAndMonth None.
Proof. intros Ht. unfold formatDateTime. by rewrite Ht. Qed.

(** C9: a timestamp on today's local calendar day is rendered as a time of
    day, a timestamp on any other day as day and month, and the instant of
    today's local midnight counts as today. *)
Theorem formatDateTime_time_iff_today (now t : Z) (dateString : string) :
  Date_parse dateString = Some t →
  (localDay t = localDay now →
   formatDateTime now dateString = TimeOfDay (Some t))
  ∧ (localDay t ≠ localDay now →
     formatDateTime now dateString = DayAndMonth (Some t))
  ∧ (t = localMidnight now →
     formatDateTime now dateString = TimeOfDay (Some t)).
Proof.
  intros Ht. rewrite (formatDateTime_valid now t) by done.
  split_and!; intros Hd.
  - by rewrite decide_True.
  - by rewrite decide_False.
  - rewrite decide_True; [done|]. subst t. apply localDay_localMidnight.
Qed.

End Timestamps.

(** Amsterdam on the day the clock goes back, seen from 23:30 in winter time:
    00:30 in summer time is today, local midnight is today, and midnight of
    the next day is not. *)
Lemma formatDateTime_time_iff_today_witness :
  let now := Examples.clockChangeEvening in
  PaymentsList.formatDateTime (dates := Examples.amsterdam) now
    "2026-10-25T00:30:00+02:00"
  = PaymentsList.TimeOfDay (Some 1792881000000%Z)
  ∧ PaymentsList.formatDateTime (dates := Examples.amsterdam) now
      "2026-10-25T00:00:00+02:00"
    = PaymentsList.TimeOfDay (Some (localMidnight (dates := Examples.amsterdam) now))
  ∧ PaymentsList.formatDateTime (dates := Examples.amsterdam) now
      "2026-10-26T00:00:00+01:00"
    = PaymentsList.DayAndMonth (Some 1792969200000%Z).
Proof.
  cbn zeta. split_and!.
  - destruct (formatDateTime_time_iff_today (dates := Examples.amsterdam)
                Examples.clockChangeEvening 1792881000000
                "2026-10-25T00:30:00+02:00" eq_refl) as (Hsame & _ & _).
    apply Hsame. reflexivity.
  - destruct (formatDateTime_time_iff_today (dates := Examples.amsterdam)
                Examples.clockChangeEvening 1792879200000
                "2026-10-25T00:00:00+02:00" eq_refl) as (_ & _ & Hmidnight).
    apply Hmidnight. reflexivity.
  - destruct (formatDateTime_time_iff_today (dates := Examples.amsterdam)
                Examples.clockChangeEvening 1792969200000
                "2026-10-26T00:00:00+01:00" eq_refl) as (_ & Hother & _).
    apply Hother. vm_compute. discriminate.
Defined.

(** ** The status filter *)
Section Filter.
Import PaymentsList.

Lemma filteredPayments_status (C : list Payment) (S : string) :
  S ≠ "all" → filteredPayments C S = filter (λ p, status p = S) C.
Proof.
  intros HS. unfold filteredPayments.
  destruct (String.eqb_spec S "all") as [|_]; [done|].
  apply List_filter_decide. intros p. apply String.eqb_eq.
Qed.

(** C7: with the selector "all" the filter returns the collection itself. *)
Theorem filteredPayments_all (C : list Payment) :
  filteredPayments C "all" = C.
Proof. reflexivity. Qed.

(** C8: for a status selector, every payment of the result has that status,
    the result is the collection with the other payments removed (a
    subsequence keeping every payment of that status), and filtering again
    changes nothing. *)
Theorem filteredPayments_by_status (C : list Payment) (S : string) :
  S ≠ "all" →
  Forall (λ p, status p = S) (filteredPayments C S)
  ∧ filteredPayments C S `sublist_of` C
  ∧ (∀ p, p ∈ filteredPayments C S ↔ p ∈ C ∧ status p = S)
  ∧ filteredPayments (filteredPayments C S) S = filteredPayments C S.
Proof.
  intros HS. rewrite !filteredPayments_status by done. split_and!.
  - apply Forall_forall. intros p Hp. by apply list_elem_of_filter in Hp as [? _].
  - apply sublist_filter.
  - intros p. rewrite list_elem_of_filter. tauto.
  - rewrite list_filter_filter. apply list_filter_iff. tauto.
Qed.

End Filter.

Lemma filteredPayments_by_status_witness :
  let a := Examples.listPayment "tr_1" "10.00" "EUR" "paid" "2026-11-03T09:13:37+01:00" in
  let b := Examples.listPayment "tr_2" "5.50" "EUR" "open" "2026-11-03T11:20:05+01:00" in
  let c := Examples.listPayment "tr_3" "3.00" "EUR" "paid" "2026-11-02T18:45:00+01:00" in
  PaymentsList.filteredPayments [a; b; c] "paid" = [a; c]
  ∧ PaymentsList.filteredPayments [a; c] "paid" = [a; c].
Proof.
  cbn zeta.
  pose proof (filteredPayments_by_status
    [Examples.listPayment "tr_1" "10.00" "EUR" "paid" "2026-11-03T09:13:37+01:00";
     Examples.listPayment "tr_2" "5.50" "EUR" "open" "2026-11-03T11:20:05+01:00";
     Examples.listPayment "tr_3" "3.00" "EUR" "paid" "2026-11-02T18:45:00+01:00"]
    "paid" ltac:(discriminate)) as (_ & _ & _ & Hidem).
  split; [reflexivity|]. exact Hidem.
Defined.

(** ** The refund workflow *)
Section RefundWorkflow.
Import PaymentsList.
Context {numbers : Numbers} {jsonText : JsonText}.

Lemma handleRefund_declined accessToken payment env w :
  userConfirms env (refundAlert payment) = false →
  handleRefund accessToken payment env w
  = (with_alerts (alerts w ++ [refundAlert payment]) w, inr ()).
Proof.
  intros Hc. unfold handleRefund, mbind, Async_bind, confirmAlert.
  by rewrite Hc.
Qed.

Lemma handleRefund_success accessToken payment env w response :
  userConfirms env (refundAlert payment) = true →
  network env (refundRequest accessToken payment) = inr response →
  Response.ok response = true →
  handleRefund accessToken payment env w
  = (with_revalidations (S (revalidations w))
       (with_toast (Some (successToast payment))
          (afterRequest accessToken payment w)),
     inr ()).
Proof.
  intros Hc Hn Hok.
  unfold handleRefund, mbind, Async_bind, confirmAlert, try_catch, fetch.
  rewrite Hc. cbn. rewrite Hn. cbn. rewrite Hok. reflexivity.
Qed.

Lemma handleRefund_failure accessToken payment env w :
  userConfirms env (refundAlert payment) = true →
  refundFails (network env (refundRequest accessToken payment)) →
  handleRefund accessToken payment env w
  = (with_toast
       (Some (failureToast
                (thrownMessage
                   (errorOfOutcome
                      (network env (refundRequest accessToken payment))))))
       (afterRequest accessToken payment w),
     inr ()).
Proof.
  intros Hc Hf.
  unfold handleRefund, mbind, Async_bind, confirmAlert, try_catch, fetch.
  rewrite Hc. cbn.
  destruct (network env (refundRequest accessToken payment)) as [e|response];
    cbn in *.
  { by destruct e. }
  rewrite Hf. cbn. unfold errorOfResponse, response_json.
  destruct (Response.json response) as [e|errorData]; cbn.
  { by destruct e. }
  destruct errorData as [|b|n|s|items|fields]; cbn; try done.
  unfold errorMessage, mbind, Async_bind. cbn.
  destruct (truthy (lookup_field "detail" fields)); cbn; [done|].
  destruct (truthy (lookup_field "title" fields)); cbn; done.
Qed.

(** C3: a confirmed refund sends exactly one request, a POST to the payment's
    refunds endpoint whose body is the JSON text of
    [{ amount: { currency, value } }] with the currency and the value of the
    payment's own amount. *)
Theorem handleRefund_single_full_amount_request accessToken payment env w :
  userConfirms env (refundAlert payment) = true →
  ∃ request,
    requests (handleRefund accessToken payment env w).1
    = (requests w ++ [request])%list
    ∧ Request.method request = "POST"
    ∧ Request.url request
      = "https://api.mollie.com/v2/payments/" +:+ id payment +:+ "/refunds"
    ∧ Request.body request
      = JSON_stringify
          (JObj [("amount",
                  JObj [("currency", JStr (currency (amount payment)));
                        ("value", JStr (value (amount payment)))])]).
Proof.
  intros Hc. exists (refundRequest accessToken payment).
  split; [|done].
  destruct (network env (refundRequest accessToken payment))
    as [e|response] eqn:Hn.
  - rewrite handleRefund_failure by (done || by rewrite Hn). done.
  - destruct (Response.ok response) eqn:Hok.
    + by rewrite (handleRefund_success _ _ _ _ response).
    + rewrite handleRefund_failure by (done || by rewrite Hn). done.
Qed.

(** C4: when the dialog is declined the workflow returns at once; nothing but
    the record of the dialog changes, so no request is sent, no toast is
    shown and nothing is re-fetched.  In any run, a request having been sent
    means the dialog was confirmed. *)
Theorem handleRefund_declined_no_effect accessToken payment env w :
  (userConfirms env (refundAlert payment) = false →
   handleRefund accessToken payment env w
   = (with_alerts (alerts w ++ [refundAlert payment]) w, inr ())
   ∧ requests (handleRefund accessToken payment env w).1 = requests w
   ∧ revalidations (handleRefund accessToken payment env w).1 = revalidations w
   ∧ toast (handleRefund accessToken payment env w).1 = toast w
   ∧ payments (handleRefund accessToken payment env w).1 = payments w)
  ∧ (requests (handleRefund accessToken payment env w).1 ≠ requests w →
     userConfirms env (refundAlert payment) = true).
Proof.
  split.
  - intros Hc. by rewrite handleRefund_declined.
  - intros Hr. destruct (userConfirms env (refundAlert payment)) eqn:Hc; [done|].
    by rewrite handleRefund_declined in Hr.
Qed.

(** C5: after a confirmed refund answered with a 2xx response, the collection
    is as it was, [revalidate] has been called exactly once more, and apart
    from the request sent the only other changes are the dialog and the
    toast. *)
Theorem handleRefund_success_refetches_once accessToken payment env w response :
  userConfirms env (refundAlert payment) = true →
  network env (refundRequest accessToken payment) = inr response →
  Response.ok response = true →
  handleRefund accessToken payment env w
  = ({| payments := payments w;
        revalidations := S (revalidations w);
        requests := requests w ++ [refundRequest accessToken payment];
        alerts := alerts w ++ [refundAlert payment];
        toast := Some (successToast payment);
        opened := opened w;
        clipboard := clipboard w |},
     inr ()).
Proof. apply handleRefund_success. Qed.

(** The code's helpers against the specification's notions. *)
Lemma truthy_Truthy (v : Json) : truthy (Some v) = true ↔ Truthy v.
Proof.
  split.
  - destruct v as [|[]|n|s|items|fields]; cbn; try done; try by constructor.
    + intros [Hz Hn]%andb_true_iff. constructor.
      * by apply negb_true_iff.
      * unfold is_nan in Hn. by apply negb_true_iff, negb_false_iff in Hn.
    + unfold truthy_string. intros Hs. constructor. intros ->. done.
  - intros [|n Hz Hn|s Hs| |]; cbn; try done.
    + rewrite Hz. unfold is_nan. by rewrite Hn.
    + unfold truthy_string. by destruct (String.eqb_spec s EmptyString).
Qed.

Lemma lookup_field_OwnProperty (fields : list (string * Json)) (k : string) (v : Json) :
  lookup_field k fields = Some v ↔ OwnProperty fields k v.
Proof.
  induction fields as [|[k' v'] rest IH]; cbn.
  - split; [done|]. inversion 1.
  - destruct (String.eqb_spec k' k) as [->|Hk].
    + split.
      * intros [= ->]. constructor.
      * inversion 1; by subst.
    + rewrite IH. split.
      * by constructor.
      * inversion 1; by subst.
Qed.

Lemma string_of_MessageText (v : Json) (m : string) :
  string_of v = m → MessageText v m.
Proof.
  intros <-. destruct v; try (by apply MessageText_other); apply MessageText_string.
Qed.

Lemma MessageText_string_inv (s m : string) : MessageText (JStr s) m → m = s.
Proof. inversion 1 as [|v Hv]; [done|]. by destruct (Hv s). Qed.

Lemma OwnProperty_lookup_field (fields : list (string * Json)) (k : string) (v : Json) :
  OwnProperty fields k v → lookup_field k fields = Some v.
Proof. apply lookup_field_OwnProperty. Qed.

Lemma ok_2xx (response : Response.t) :
  Response.ok response = true ↔ (200 ≤ Response.status response ≤ 299)%N.
Proof. unfold Response.ok. rewrite andb_true_iff, !N.leb_le. done. Qed.

Lemma NotSuccessful_refundFails (outcome : Thrown + Response.t) :
  NotSuccessful outcome → refundFails outcome.
Proof.
  destruct outcome as [e|response]; [done|]. cbn. intros Hn.
  destruct (Response.ok response) eqn:Hok; [|done].
  by apply ok_2xx in Hok.
Qed.

Lemma falsy_lookup (fields : list (string * Json)) (k : string) :
  (∀ v, OwnProperty fields k v → ¬ Truthy v) → truthy (lookup_field k fields) = false.
Proof.
  intros Hf. destruct (lookup_field k fields) as [v|] eqn:Hl; [|done].
  apply lookup_field_OwnProperty, Hf in Hl.
  destruct (truthy (Some v)) eqn:Ht; [|done]. by apply truthy_Truthy in Ht.
Qed.

(** The message thrown for a structured error body. *)
Lemma errorOfResponse_object (response : Response.t) (fields : list (string * Json)) :
  Response.json response = inr (JObj fields) →
  let message := thrownMessage (errorOfResponse response) in
  (∀ detail, OwnProperty fields "detail" detail → Truthy detail →
     MessageText detail message)
  ∧ (∀ title,
       (∀ detail, OwnProperty fields "detail" detail → ¬ Truthy detail) →
       OwnProperty fields "title" title → Truthy title →
       MessageText title message)
  ∧ ((∀ detail, OwnProperty fields "detail" detail → ¬ Truthy detail) →
     (∀ title, OwnProperty fields "title" title → ¬ Truthy title) →
     message = "HTTP error! Status: " +:+ pretty (Response.status response)).
Proof.
  intros Hj. cbn zeta. unfold errorOfResponse. rewrite Hj. cbn [field].
  split_and!.
  - intros d Hd%lookup_field_OwnProperty Ht%truthy_Truthy. rewrite Hd, Ht. cbn.
    by apply string_of_MessageText.
  - intros t Hno%falsy_lookup Hp%lookup_field_OwnProperty Ht%truthy_Truthy.
    rewrite Hno, Hp, Ht. cbn. by apply string_of_MessageText.
  - intros Hnd%falsy_lookup Hnt%falsy_lookup. by rewrite Hnd, Hnt.
Qed.


(** C10: for a response that is not 2xx, the toast's message is the parse
    error's message when the body does not parse as JSON; when it parses, it
    is the detail if that is truthy, else the title if that is truthy, and
    "HTTP error! Status: " followed by the status code exactly in what is
    left: a body, other than [null], with neither.  For the body [null]
    it is the message of the [TypeError] that reading [detail] raises. *)
Theorem handleRefund_non_2xx_message accessToken payment env w response :
  userConfirms env (refundAlert payment) = true →
  network env (refundRequest accessToken payment) = inr response →
  ¬ (200 ≤ Response.status response ≤ 299)%N →
  ∃ message,
    toast (handleRefund accessToken payment env w).1
    = Some {| Toast.style := Failure; Toast.title := "Refund Failed";
              Toast.message := Some message |}
    ∧ (∀ parseMessage,
         Response.json response = inl (ErrorObject parseMessage) →
         message = parseMessage)
    ∧ (∀ errorData detail,
         Response.json response = inr errorData →
         HasProperty errorData "detail" detail → Truthy detail →
         MessageText detail message)
    ∧ (∀ errorData title,
         Response.json response = inr errorData →
         (∀ detail, HasProperty errorData "detail" detail → ¬ Truthy detail) →
         HasProperty errorData "title" title → Truthy title →
         MessageText title message)
    ∧ (∀ errorData,
         Response.json response = inr errorData →
         errorData ≠ JNull →
         (∀ detail, HasProperty errorData "detail" detail → ¬ Truthy detail) →
         (∀ title, HasProperty errorData "title" title → ¬ Truthy title) →
         message = "HTTP error! Status: " +:+ pretty (Response.status response))
    ∧ (Response.json response = inr JNull →
       message = nullPropertyMessage "detail").
Proof.
  intros Hc Hn Hstatus.
  assert (refundFails (network env (refundRequest accessToken payment))) as Hf.
  { apply NotSuccessful_refundFails. by rewrite Hn. }
  rewrite handleRefund_failure by done.
  rewrite Hn. eexists. split; [done|]. cbn [errorOfOutcome].
  split_and!.
  - intros m Hj. unfold errorOfResponse. by rewrite Hj.
  - intros j d Hj (fields & -> & Hp) Ht.
    destruct (errorOfResponse_object response fields Hj) as (Hdetail & _ & _).
    by apply Hdetail.
  - intros j t Hj Hno (fields & -> & Hp) Ht.
    destruct (errorOfResponse_object response fields Hj) as (_ & Htitle & _).
    apply Htitle; [|done..].
    intros d Hd. apply Hno. by exists fields.
  - intros j Hj Hnull Hnd Hnt.
    destruct j as [|b|n|s|items|fields]; [done| | | | |];
      try (unfold errorOfResponse; by rewrite Hj).
    destruct (errorOfResponse_object response fields Hj) as (_ & _ & Hgeneric).
    apply Hgeneric.
    + intros d Hd. apply Hnd. by exists fields.
    + intros t Ht. apply Hnt. by exists fields.
  - intros Hj. unfold errorOfResponse. by rewrite Hj.
Qed.

End RefundWorkflow.

Lemma handleRefund_single_full_amount_request_witness :
  ∃ request,
    PaymentsList.requests
      (PaymentsList.handleRefund (numbers := Examples.numbers) (jsonText := Examples.jsonText)
         "access_1" Examples.paidToday
         (Examples.scripted true (inr Examples.created)) Examples.emptyWorld).1
    = [request]
    ∧ PaymentsList.Request.body request
      = "{" +:+ PaymentsList.dquote +:+ "amount" +:+ PaymentsList.dquote +:+ ":{"
        +:+ PaymentsList.dquote +:+ "currency" +:+ PaymentsList.dquote +:+ ":"
        +:+ PaymentsList.dquote +:+ "EUR" +:+ PaymentsList.dquote +:+ ","
        +:+ PaymentsList.dquote +:+ "value" +:+ PaymentsList.dquote +:+ ":"
        +:+ PaymentsList.dquote +:+ "10.00" +:+ PaymentsList.dquote +:+ "}}".
Proof.
  destruct (handleRefund_single_full_amount_request
              (numbers := Examples.numbers) (jsonText := Examples.jsonText)
              "access_1" Examples.paidToday
              (Examples.scripted true (inr Examples.created))
              Examples.emptyWorld eq_refl)
    as (request & Hr & _ & _ & Hb).
  exists request. split; [exact Hr|]. rewrite Hb. reflexivity.
Defined.

Lemma handleRefund_declined_no_effect_witness :
  PaymentsList.handleRefund (numbers := Examples.numbers) (jsonText := Examples.jsonText)
    "access_1" Examples.paidToday
    (Examples.scripted false (inr Examples.created)) Examples.emptyWorld
  = (PaymentsList.with_alerts
       [PaymentsList.refundAlert (numbers := Examples.numbers) Examples.paidToday]
       Examples.emptyWorld,
     inr ()).
Proof.
  exact (proj1 (proj1 (handleRefund_declined_no_effect
                         (numbers := Examples.numbers) (jsonText := Examples.jsonText)
                         "access_1" Examples.paidToday
                         (Examples.scripted false (inr Examples.created))
                         Examples.emptyWorld) eq_refl)).
Defined.

Lemma handleRefund_success_refetches_once_witness :
  let w' :=
    (PaymentsList.handleRefund (numbers := Examples.numbers) (jsonText := Examples.jsonText)
       "access_1" Examples.paidToday
       (Examples.scripted true (inr Examples.created)) Examples.emptyWorld).1 in
  PaymentsList.revalidations w' = 1
  ∧ PaymentsList.payments w' = [Examples.paidToday].
Proof.
  cbn zeta.
  rewrite (handleRefund_success_refetches_once
             (numbers := Examples.numbers) (jsonText := Examples.jsonText)
             "access_1" Examples.paidToday
             (Examples.scripted true (inr Examples.created))
             Examples.emptyWorld Examples.created eq_refl eq_refl eq_refl).
  split; reflexivity.
Defined.


(** Four responses that are not 2xx: a body that is not JSON, a detail, an
    empty detail beside a title, and an object with neither. *)
Lemma handleRefund_non_2xx_message_witness :
  let run response :=
    (PaymentsList.handleRefund
       (numbers := Examples.numbers) (jsonText := Examples.jsonText)
       "access_1" Examples.paidToday
       (Examples.scripted true (inr response)) Examples.emptyWorld).1 in
  let failure message :=
    Some {| PaymentsList.Toast.style := PaymentsList.Failure;
            PaymentsList.Toast.title := "Refund Failed";
            PaymentsList.Toast.message := Some message |} in
  PaymentsList.toast (run Examples.badGateway)
  = failure "Unexpected token < in JSON at position 0"
  ∧ PaymentsList.toast (run Examples.insufficientBalance)
    = failure "insufficient balance"
  ∧ PaymentsList.toast (run Examples.titleOnly) = failure "Not Found"
  ∧ PaymentsList.toast (run Examples.bareError)
    = failure "HTTP error! Status: 500".
Proof.
  cbn zeta. split_and!.
  - destruct (handleRefund_non_2xx_message
                (numbers := Examples.numbers) (jsonText := Examples.jsonText)
                "access_1" Examples.paidToday
                (Examples.scripted true (inr Examples.badGateway))
                Examples.emptyWorld Examples.badGateway eq_refl eq_refl)
      as (message & Ht & Hparse & _); [cbn; lia|].
    rewrite Ht. by rewrite (Hparse _ eq_refl).
  - destruct (handleRefund_non_2xx_message
                (numbers := Examples.numbers) (jsonText := Examples.jsonText)
                "access_1" Examples.paidToday
                (Examples.scripted true (inr Examples.insufficientBalance))
                Examples.emptyWorld Examples.insufficientBalance eq_refl eq_refl)
      as (message & Ht & _ & Hdetail & _); [cbn; lia|].
    rewrite Ht. do 3 f_equal.
    apply (MessageText_string_inv (jsonText := Examples.jsonText)), (Hdetail _ _ eq_refl).
    + eexists. split; [reflexivity|]. apply lookup_field_OwnProperty. reflexivity.
    + by constructor.
  - destruct (handleRefund_non_2xx_message
                (numbers := Examples.numbers) (jsonText := Examples.jsonText)
                "access_1" Examples.paidToday
                (Examples.scripted true (inr Examples.titleOnly))
                Examples.emptyWorld Examples.titleOnly eq_refl eq_refl)
      as (message & Ht & _ & _ & Htitle & _); [cbn; lia|].
    rewrite Ht. do 3 f_equal.
    apply (MessageText_string_inv (jsonText := Examples.jsonText)), (Htitle _ _ eq_refl).
    + intros d (fields & Hf & Hd%OwnProperty_lookup_field).
      injection Hf as <-. injection Hd as <-. by inversion 1.
    + eexists. split; [reflexivity|]. apply lookup_field_OwnProperty. reflexivity.
    + by constructor.
  - destruct (handleRefund_non_2xx_message
                (numbers := Examples.numbers) (jsonText := Examples.jsonText)
                "access_1" Examples.paidToday
                (Examples.scripted true (inr Examples.bareError))
                Examples.emptyWorld Examples.bareError eq_refl eq_refl)
      as (message & Ht & _ & _ & _ & Hgeneric & _); [cbn; lia|].
    rewrite Ht. do 3 f_equal.
    rewrite (Hgeneric _ eq_refl); [reflexivity|done| |];
      intros d (fields & Hf & Hd%OwnProperty_lookup_field);
      injection Hf as <-; discriminate Hd.
Defined.

(** ** Offering the refund *)
Section RefundOffer.
Import PaymentsList.
Context {dates : Dates} {numbers : Numbers} {jsonText : JsonText}.

Lemma RefundPayment_in_itemActions (payment other : Payment) :
  RefundPayment other ∈ itemActions payment
  ↔ other = payment ∧ status payment = "paid".
Proof.
  unfold itemActions.
  rewrite !elem_of_app, !elem_of_cons, elem_of_nil.
  destruct (String.eqb_spec (status payment) "paid") as [Hs|Hs].
  - rewrite list_elem_of_singleton. split.
    + intros [[Ho|[]]|[Ho|[Ho|[Ho|[]]]]]; try discriminate Ho.
      by injection Ho as ->.
    + intros [-> _]. right. by left.
  - rewrite elem_of_nil. split.
    + intros [[Ho|[]]|[[]|[Ho|[Ho|[]]]]]; discriminate Ho.
    + by intros [_ ?].
Qed.

Lemma listItems_actions (now : Z) (visible : list Payment) (item : ListItem.t) :
  item ∈ listItems now visible →
  ∃ payment, payment ∈ visible
             ∧ ListItem.key item = id payment
             ∧ ListItem.actions item = itemActions payment.
Proof.
  unfold listItems. rewrite list_elem_of_fmap.
  intros (payment & -> & Hp). by exists payment.
Qed.

(** C2: a row offers the refund action exactly when its payment is paid, the
    action refunds that very payment, and no other action of a row sends a
    request: a refund starts only from a row whose payment is paid. *)
Theorem refund_offered_iff_paid (now : Z) (visible : list Payment) :
  (∀ payment, RefundPayment payment ∈ itemActions payment
              ↔ status payment = "paid")
  ∧ (∀ item other,
       item ∈ listItems now visible →
       RefundPayment other ∈ ListItem.actions item →
       other ∈ visible ∧ ListItem.key item = id other ∧ status other = "paid")
  ∧ (∀ payment, payment ∈ visible → status payment = "paid" →
       ∃ item, item ∈ listItems now visible
               ∧ RefundPayment payment ∈ ListItem.actions item)
  ∧ (∀ item action accessToken env w,
       item ∈ listItems now visible →
       action ∈ ListItem.actions item →
       requests (perform accessToken action env w).1 ≠ requests w →
       ∃ payment, payment ∈ visible ∧ status payment = "paid"
                  ∧ action = RefundPayment payment).
Proof.
  split_and!.
  - intros payment. rewrite RefundPayment_in_itemActions. tauto.
  - intros item other (payment & Hp & Hk & Ha)%listItems_actions Hr.
    rewrite Ha in Hr. apply RefundPayment_in_itemActions in Hr as [-> Hs].
    done.
  - intros payment Hp Hs.
    eexists. split.
    + unfold listItems. apply list_elem_of_fmap. by exists payment.
    + cbn. by apply RefundPayment_in_itemActions.
  - intros item action accessToken env w
      (payment & Hp & _ & Ha)%listItems_actions Hact Hreq.
    rewrite Ha in Hact. destruct action as [url title|other|title content].
    + by destruct Hreq.
    + apply RefundPayment_in_itemActions in Hact as [-> Hs].
      by exists payment.
    + by destruct Hreq.
Qed.

End RefundOffer.

(** ** Every run of the refund workflow *)
Section RefundRuns.
Import PaymentsList.
Context {numbers : Numbers} {jsonText : JsonText}.

(** The three ways a run can go. *)
Lemma handleRefund_cases accessToken payment env w :
  let result := handleRefund accessToken payment env w in
  let request := refundRequest accessToken payment in
  (userConfirms env (refundAlert payment) = false
   ∧ result = (with_alerts (alerts w ++ [refundAlert payment]) w, inr ()))
  ∨ (userConfirms env (refundAlert payment) = true
     ∧ (∃ response, network env request = inr response
                    ∧ Response.ok response = true)
     ∧ result
       = (with_revalidations (S (revalidations w))
            (with_toast (Some (successToast payment))
               (afterRequest accessToken payment w)),
          inr ()))
  ∨ (userConfirms env (refundAlert payment) = true
     ∧ refundFails (network env request)
     ∧ result
       = (with_toast
            (Some (failureToast
                     (thrownMessage (errorOfOutcome (network env request)))))
            (afterRequest accessToken payment w),
          inr ())).
Proof.
  cbn zeta.
  destruct (userConfirms env (refundAlert payment)) eqn:Hc.
  - right.
    destruct (network env (refundRequest accessToken payment))
      as [e|response] eqn:Hn.
    + right. split_and!; [done|done|].
      rewrite <- Hn. apply handleRefund_failure; [done|by rewrite Hn].
    + destruct (Response.ok response) eqn:Hok.
      * left. split_and!; [done|by exists response|].
        by apply handleRefund_success with response.
      * right. split_and!; [done|done|].
        rewrite <- Hn. apply handleRefund_failure; [done|by rewrite Hn].
  - left. split; [done|]. by apply handleRefund_declined.
Qed.

(** The collection is re-fetched exactly when the dialog was confirmed and
    the server answered with a 2xx status, and then once. *)
Theorem handleRefund_refetch_iff_success accessToken payment env w :
  let w' := (handleRefund accessToken payment env w).1 in
  let succeeded :=
    userConfirms env (refundAlert payment) = true
    ∧ ∃ response,
        network env (refundRequest accessToken payment) = inr response
        ∧ Response.ok response = true in
  (succeeded → revalidations w' = S (revalidations w))
  ∧ (¬ succeeded → revalidations w' = revalidations w).
Proof.
  cbn zeta.
  destruct (handleRefund_cases accessToken payment env w)
    as [[Hc ->]|[(Hc & Hr & ->)|(Hc & Hf & ->)]]; cbn.
  - split; [|done]. intros [Hc' _]. congruence.
  - split; [done|]. intros Hn. by destruct Hn.
  - split; [|done]. intros (_ & response & Hn & Hok).
    rewrite Hn in Hf. cbn in Hf. congruence.
Qed.

(** After a confirmed run the progress toast is gone: the toast announces
    success when the re-fetch was triggered and failure when it was not. *)
Theorem handleRefund_toast_settles accessToken payment env w :
  userConfirms env (refundAlert payment) = true →
  let w' := (handleRefund accessToken payment env w).1 in
  (toast w' = Some (successToast payment)
   ∧ revalidations w' = S (revalidations w))
  ∨ (∃ message, toast w' = Some (failureToast message)
                ∧ revalidations w' = revalidations w).
Proof.
  intros Hc. cbn zeta.
  destruct (handleRefund_cases accessToken payment env w)
    as [[Hc' _]|[(_ & _ & ->)|(_ & _ & ->)]]; [congruence|by left|].
  right. by eexists.
Qed.

(** The first action of a row, the one the Enter key runs, opens the
    dashboard; running it sends nothing, asks nothing and notifies nothing.
    A row has four actions when its payment is paid and three otherwise. *)
Theorem primary_action_opens_dashboard accessToken (payment : Payment) env w :
  let primary := OpenInBrowser (dashboardHref payment) "Open in Mollie Dashboard" in
  head (itemActions payment) = Some primary
  ∧ length (itemActions payment)
    = (if decide (status payment = "paid") then 4 else 3)
  ∧ perform accessToken primary env w
    = (with_opened (opened w ++ [dashboardHref payment]) w, inr ()).
Proof.
  cbn zeta. split_and!; [done| |done].
  unfold itemActions.
  destruct (String.eqb_spec (status payment) "paid");
    by case_decide.
Qed.

End RefundRuns.

Lemma handleRefund_toast_settles_witness :
  PaymentsList.toast
    (PaymentsList.handleRefund
       (numbers := Examples.numbers) (jsonText := Examples.jsonText)
       "access_1" Examples.paidToday
       (Examples.scripted true (inl PaymentsList.NotAnError))
       Examples.emptyWorld).1
  = Some (PaymentsList.failureToast "An unknown error occurred.").
Proof.
  destruct (handleRefund_toast_settles
              (numbers := Examples.numbers) (jsonText := Examples.jsonText)
              "access_1" Examples.paidToday
              (Examples.scripted true (inl PaymentsList.NotAnError))
              Examples.emptyWorld eq_refl)
    as [[_ Hr]|(message & Ht & _)].
  - discriminate Hr.
  - reflexivity.
Defined.

(** ** The rows, their tags and their icons *)
Section Rows.
Import PaymentsList.
Context {dates : Dates} {numbers : Numbers} {jsonText : JsonText}
        {strings : Strings}.

Lemma truthy_string_nonempty (s : string) :
  truthy_string s = true ↔ s ≠ EmptyString.
Proof.
  unfold truthy_string. rewrite negb_true_iff.
  destruct (String.eqb_spec s EmptyString); split; congruence.
Qed.

(** The rows follow the visible payments one for one and in order, and no row
    has an empty title: a payment without description is titled
    "No description". *)
Theorem listItems_keys_and_titles (now : Z) (visible : list Payment) :
  ListItem.key <$> listItems now visible = id <$> visible
  ∧ Forall (λ item, ListItem.title item ≠ EmptyString) (listItems now visible)
  ∧ ∀ i payment, visible !! i = Some payment →
      ∃ item, listItems now visible !! i = Some item
              ∧ ListItem.title item
                = (if decide (description payment = EmptyString)
                   then "No description" else description payment).
Proof.
  unfold listItems. split_and!.
  - rewrite <- list_fmap_compose. by apply list_fmap_ext.
  - apply Forall_fmap, Forall_forall. intros payment _. cbn.
    destruct (truthy_string (description payment)) eqn:Hd; [|done].
    by apply truthy_string_nonempty.
  - intros i payment Hi. eexists. rewrite list_lookup_fmap, Hi. split; [done|].
    cbn. case_decide as Hd.
    + by rewrite Hd.
    + apply truthy_string_nonempty in Hd. by rewrite Hd.
Qed.

(** What a row copies is what it shows: the amount put on the clipboard is
    the amount text of the row, and the identifier is the row's key. *)
Theorem copy_actions_match_row (now : Z) (visible : list Payment)
    (item : ListItem.t) accessToken env w :
  item ∈ listItems now visible →
  let copyAmount :=
    CopyToClipboard "Copy Amount to Clipboard" (ListItem.amountText item) in
  let copyId :=
    CopyToClipboard "Copy Payment Id to Clipboard" (ListItem.key item) in
  copyAmount ∈ ListItem.actions item
  ∧ copyId ∈ ListItem.actions item
  ∧ perform accessToken copyAmount env w
    = (with_clipboard (Some (ListItem.amountText item)) w, inr ()).
Proof.
  unfold listItems. intros (payment & -> & _)%list_elem_of_fmap. cbn.
  split_and!; [| |done]; unfold itemActions;
    destruct (String.eqb (status payment) "paid"); cbn;
    rewrite !elem_of_cons; tauto.
Qed.

(** A row carries the green tag exactly when it offers the refund. *)
Theorem green_tag_iff_refund_offered (payment : Payment) :
  Tag.color (itemStatusTag payment) = Green
  ↔ RefundPayment payment ∈ itemActions payment.
Proof.
  rewrite RefundPayment_in_itemActions.
  unfold itemStatusTag, getStatusTag. split.
  - intros Hg. split; [done|].
    destruct (String.eqb_spec (status payment) "paid"); [done|].
    by repeat case_match.
  - intros [_ ->]. done.
Qed.

(** A status outside the eight of the payment type is shown as it is, in the
    neutral colour; each of the eight gets a label of its own. *)
Theorem getStatusTag_unknown_and_known (status : string) :
  (status ∉ paymentStatuses →
   getStatusTag status = {| Tag.value := status; Tag.color := SecondaryText |})
  ∧ (status ∈ paymentStatuses → Tag.value (getStatusTag status) ≠ status)
  ∧ (∀ other, status ∈ paymentStatuses → other ∈ paymentStatuses →
       Tag.value (getStatusTag status) = Tag.value (getStatusTag other) →
       status = other).
Proof.
  unfold paymentStatuses. split_and!.
  - rewrite !not_elem_of_cons. intros (? & ? & ? & ? & ? & ? & ? & ? & _).
    unfold getStatusTag.
    by repeat (match goal with
               | |- context [String.eqb ?a ?b] =>
                   destruct (String.eqb_spec a b); [congruence|]
               end).
  - rewrite !elem_of_cons, elem_of_nil.
    intros [->|[->|[->|[->|[->|[->|[->|[->|[]]]]]]]]]; by vm_compute.
  - intros other. rewrite !elem_of_cons, !elem_of_nil.
    intros [->|[->|[->|[->|[->|[->|[->|[->|[]]]]]]]]]
           [->|[->|[->|[->|[->|[->|[->|[->|[]]]]]]]]]; by vm_compute.
Qed.

(** The filter dropdown agrees with the tags: apart from "all", which comes
    first, its entries are the eight statuses, once each, and each entry has
    the title and the colour of the tag shown for its status. *)
Theorem dropdown_matches_tags :
  DropdownItem.value <$> dropdownItems ≡ₚ "all" :: paymentStatuses
  ∧ DropdownItem.value <$> head dropdownItems = Some "all"
  ∧ NoDup (DropdownItem.value <$> dropdownItems)
  ∧ Forall (λ item,
              DropdownItem.value item ≠ "all" →
              Some (getStatusTag (DropdownItem.value item))
              = (λ c, {| Tag.value := DropdownItem.title item; Tag.color := c |})
                  <$> DropdownItem.tintColor item)
           dropdownItems.
Proof.
  split_and!.
  - by apply (bool_decide_unpack _).
  - done.
  - by apply (bool_decide_unpack _).
  - unfold dropdownItems. repeat constructor; by vm_compute.
Qed.

(** The icon of a method is the bank note, or one of the images the assets
    folder is asked to hold; an absent or empty method gets the bank note. *)
Theorem getPaymentMethodIcon_in_assets (method : option string) :
  (getPaymentMethodIcon method = ImageIcon BankNote
   ∨ ∃ file, file ∈ requiredIcons
             ∧ getPaymentMethodIcon method
               = ImageSource ("payment-methods/" +:+ file))
  ∧ (method = None ∨ method = Some EmptyString →
     getPaymentMethodIcon method = ImageIcon BankNote).
Proof.
  split.
  - unfold getPaymentMethodIcon. destruct method as [m|]; [|by left].
    destruct (negb (truthy_string m)); [by left|]. cbn zeta.
    repeat (match goal with
            | |- context [String.eqb ?a ?b] => destruct (String.eqb a b)
            end;
            [right; eexists; split; [|cbn; reflexivity];
             apply (bool_decide_unpack _); by vm_compute|]).
    by left.
  - by intros [->| ->].
Qed.

End Rows.

(** ** Filtering and the empty view *)
Section ListView.
Import PaymentsList.
Context {dates : Dates} {numbers : Numbers}.

Lemma filteredPayments_elem (C : list Payment) (S : string) (p : Payment) :
  p ∈ filteredPayments C S ↔ p ∈ C ∧ (S = "all" ∨ status p = S).
Proof.
  destruct (decide (S = "all")) as [->|HS].
  - change (filteredPayments C "all") with C. tauto.
  - rewrite filteredPayments_status, list_elem_of_filter by done. tauto.
Qed.

Lemma filteredPayments_nil (C : list Payment) (S : string) :
  filteredPayments C S = []
  ↔ ∀ p, p ∈ C → S ≠ "all" ∧ status p ≠ S.
Proof.
  split.
  - intros He p Hp.
    destruct (decide (S = "all")) as [->|Hs].
    + change (filteredPayments C "all") with C in He. rewrite He in Hp. by inv Hp.
    + split; [done|]. intros Hst.
      assert (p ∈ filteredPayments C S) as Hin
        by (apply filteredPayments_elem; tauto).
      rewrite He in Hin. by inv Hin.
  - intros Hall. apply elem_of_nil_inv.
    intros p [Hp Hs]%filteredPayments_elem.
    destruct (Hall p Hp) as [? ?]. destruct Hs; by subst.
Qed.

Lemma listItems_nil (now : Z) (l : list Payment) :
  listItems now l = [] ↔ l = [].
Proof. unfold listItems. split; [apply fmap_nil_inv|by intros ->]. Qed.

(** Filtering twice: "all" changes nothing on either side, the same status
    twice is that status once, and two different statuses leave nothing. *)
Theorem filteredPayments_compose (C : list Payment) (S T : string) :
  filteredPayments (filteredPayments C S) T
  = if decide (S = "all") then filteredPayments C T
    else if decide (T = "all" ∨ T = S) then filteredPayments C S
    else [].
Proof.
  case_decide as HS; [by subst|].
  case_decide as HT.
  - destruct HT as [->| ->]; [done|].
    rewrite !filteredPayments_status by done.
    rewrite list_filter_filter. apply list_filter_iff. tauto.
  - assert (T ≠ "all") by tauto.
    rewrite (filteredPayments_status _ T), (filteredPayments_status _ S) by done.
    rewrite list_filter_filter.
    apply elem_of_nil_inv. intros p [[-> ->] _]%list_elem_of_filter. tauto.
Qed.

(** The empty view appears exactly when loading is over and no row is
    shown; rows and the empty view never appear together. *)
Theorem render_empty_iff_no_rows (now : Z) (data : option (list Payment))
    (isLoading : bool) (statusFilter : string) :
  let view := render now data isLoading statusFilter in
  (is_Some (ListView.empty view)
   ↔ isLoading = false ∧ ListView.items view = [])
  ∧ (ListView.items view = []
     ↔ ∀ p, p ∈ allPayments data → statusFilter ≠ "all" ∧ status p ≠ statusFilter)
  ∧ (length (ListView.items view) ≤ length (allPayments data))%nat.
Proof.
  cbn zeta. unfold render, emptyView. cbn. rewrite listItems_nil. split_and!.
  - destruct isLoading, (filteredPayments (allPayments data) statusFilter);
      cbn; split; (intros [??] || intros ?); done.
  - apply filteredPayments_nil.
  - unfold listItems. rewrite length_fmap. unfold filteredPayments.
    destruct (String.eqb statusFilter "all"); [done|].
    apply List.filter_length_le.
Qed.

(** When loading is over and no payment has the selected status, the empty
    view names that status; under "all", and also when the fetch delivered
    nothing, it says that there are no payments yet. *)
Theorem emptyView_names_the_filter (now : Z) (data : option (list Payment))
    (statusFilter : string) :
  (∀ p, p ∈ allPayments data → statusFilter ≠ "all" ∧ status p ≠ statusFilter) →
  ListView.empty (render now data false statusFilter)
  = Some {| EmptyView.title := "No Payments Found";
            EmptyView.description :=
              if decide (statusFilter = "all")
              then "You don't have any payments yet."
              else "No " +:+ statusFilter
                   +:+ " payments found. Try changing the filter.";
            EmptyView.icon := BankNote |}.
Proof.
  intros Hall%filteredPayments_nil.
  unfold render. cbn. rewrite Hall. unfold emptyView. cbn.
  destruct (String.eqb_spec statusFilter "all"); by case_decide.
Qed.

End ListView.

Lemma emptyView_names_the_filter_witness :
  PaymentsList.EmptyView.description
    <$> PaymentsList.ListView.empty
          (PaymentsList.render
             (dates := Examples.cet) (numbers := Examples.numbers)
             Examples.afternoon (Some [Examples.paidToday]) false "refunded")
  = Some "No refunded payments found. Try changing the filter.".
Proof.
  rewrite (emptyView_names_the_filter
             (dates := Examples.cet) (numbers := Examples.numbers)
             Examples.afternoon (Some [Examples.paidToday]) "refunded").
  - reflexivity.
  - intros p Hp. apply list_elem_of_singleton in Hp. subst p.
    split; discriminate.
Defined.

(** ** More on local days *)
Section LocalDayWindow.
Context {dates : Dates}.

Lemma localMidnight_le (now : Z) : (localMidnight now ≤ now)%Z.
Proof. apply startOfDay_le. Qed.

End LocalDayWindow.

(** ** Today's revenue, continued *)
Section RevenueComposition.
Import TransactionsMenuBar.
Context {dates : Dates} {numbers : Numbers} {strings : Strings}.

Lemma todayTimestamp_same_day (now1 now2 : Z) :
  localDay now1 = localDay now2 → todayTimestamp now1 = todayTimestamp now2.
Proof.
  intros Hd. unfold todayTimestamp. rewrite !setHours0_localMidnight.
  f_equal. by apply localMidnight_inj.
Qed.

(** The figures do not move during a day: two moments of the same local day
    give the same menu, and the same rendering of every timestamp in the
    list. *)
Theorem same_day_same_figures (now1 now2 : Z) :
  localDay now1 = localDay now2 →
  (∀ data isLoading settlementData isLoadingSettlement,
     render now1 data isLoading settlementData isLoadingSettlement
     = render now2 data isLoading settlementData isLoadingSettlement)
  ∧ (∀ dateString,
       PaymentsList.formatDateTime now1 dateString
       = PaymentsList.formatDateTime now2 dateString).
Proof.
  intros Hd. split.
  - intros data l sd ls. unfold render. f_equal; [f_equal|do 2 f_equal];
      destruct data as [payments|]; try done;
      unfold aggregateToday, total, aggregateCurrency, todayPaidPayments;
      by rewrite (todayTimestamp_same_day now1 now2).
  - intros s. unfold PaymentsList.formatDateTime.
    by rewrite (todayTimestamp_same_day now1 now2 Hd : setHours0 _ = setHours0 _).
Qed.

(** A payment that does not count (not paid, created before today's local
    midnight, or with a timestamp that does not parse) can be added to or
    taken from the collection without changing the summary. *)
Theorem aggregateToday_ignores_others (now : Z) (before after : list Payment)
    (p : Payment) :
  ¬ Qualifies now p →
  aggregateToday now (Some (before ++ p :: after)%list)
  = aggregateToday now (Some (before ++ after)%list).
Proof.
  intros Hp. unfold aggregateToday, total, aggregateCurrency.
  rewrite !todayPaidPayments_Qualifies.
  by rewrite !filter_app, filter_cons_False.
Qed.

(** Before the payments arrive the menu shows what it shows for an empty
    collection; the count never exceeds the size of the collection, and it is
    zero exactly when no payment counts. *)
Theorem aggregateToday_missing_and_bounds (now : Z) (payments : list Payment) :
  (∀ isLoading settlementData isLoadingSettlement,
     render now None isLoading settlementData isLoadingSettlement
     = render now (Some []) isLoading settlementData isLoadingSettlement)
  ∧ (transactionCount (aggregateToday now (Some payments)) ≤ length payments)%nat
  ∧ (transactionCount (aggregateToday now (Some payments)) = 0%nat
     ↔ ∀ p, p ∈ payments → ¬ Qualifies now p).
Proof.
  split_and!; [done| |]; cbn; rewrite todayPaidPayments_Qualifies.
  - apply length_filter.
  - rewrite length_zero_iff_nil. split.
    + intros He p Hp Hq.
      assert (p ∈ filter (Qualifies now) payments) as Hin
        by by apply list_elem_of_filter.
      rewrite He in Hin. by inv Hin.
    + intros Hall. apply elem_of_nil_inv.
      intros p [Hq Hp]%list_elem_of_filter. by apply (Hall p).
Qed.

(** There is no upper bound on the date: a paid payment created at the
    present moment or at any later one is counted. *)
Theorem todayPaidPayments_no_upper_bound (now t : Z) (payments : list Payment)
    (p : Payment) :
  p ∈ payments →
  status p = "paid" →
  Date_parse (createdAt p) = Some t →
  (now ≤ t)%Z →
  p ∈ todayPaidPayments now payments.
Proof.
  intros Hp Hs Ht Hle. rewrite todayPaidPayments_Qualifies.
  apply list_elem_of_filter. split; [|done].
  split; [done|]. rewrite Ht. pose proof (localMidnight_le now). lia.
Qed.

(** The list and the menu agree on today: a paid payment whose row shows a
    time of day is one the menu counts. *)
Theorem time_of_day_row_is_counted (now : Z) (payments : list Payment)
    (p : Payment) (date : TimeValue) :
  p ∈ payments →
  status p = "paid" →
  PaymentsList.formatDateTime now (createdAt p) = PaymentsList.TimeOfDay date →
  p ∈ todayPaidPayments now payments.
Proof.
  intros Hp Hs Hf. rewrite todayPaidPayments_Qualifies.
  apply list_elem_of_filter. split; [|done]. split; [done|].
  destruct (Date_parse (createdAt p)) as [t|] eqn:Ht.
  - rewrite (formatDateTime_valid now t) in Hf by done.
    case_decide as Hd; [|done]. apply localMidnight_inj in Hd.
    rewrite <- Hd. apply localMidnight_le.
  - by rewrite formatDateTime_invalid in Hf.
Qed.

End RevenueComposition.

Lemma copy_actions_match_row_witness :
  (PaymentsList.perform
     (numbers := Examples.numbers) (jsonText := Examples.jsonText)
     "access_1"
     (PaymentsList.CopyToClipboard "Copy Amount to Clipboard" "EUR 10,00")
     (Examples.scripted true (inr Examples.created)) Examples.emptyWorld).1
  = PaymentsList.with_clipboard (Some "EUR 10,00") Examples.emptyWorld.
Proof.
  destruct (copy_actions_match_row
              (dates := Examples.cet) (numbers := Examples.numbers)
              (jsonText := Examples.jsonText)
              Examples.afternoon [Examples.paidToday] _
              "access_1" (Examples.scripted true (inr Examples.created))
              Examples.emptyWorld (list_elem_of_here _ _))
    as (_ & _ & Hp).
  exact (f_equal fst Hp).
Defined.

Lemma same_day_same_figures_witness :
  TransactionsMenuBar.render
    (dates := Examples.amsterdam) (numbers := Examples.numbers)
    (strings := Examples.strings)
    Examples.clockChangeEvening
    (Some [Examples.menuPayment "tr_2" "10.00" "EUR" "paid"
             "2026-10-25T00:30:00+02:00"])
    false None false
  = TransactionsMenuBar.render
      (dates := Examples.amsterdam) (numbers := Examples.numbers)
      (strings := Examples.strings)
      1792881000000
      (Some [Examples.menuPayment "tr_2" "10.00" "EUR" "paid"
               "2026-10-25T00:30:00+02:00"])
      false None false.
Proof.
  apply (same_day_same_figures
           (dates := Examples.amsterdam) (numbers := Examples.numbers)
           (strings := Examples.strings)
           Examples.clockChangeEvening 1792881000000 eq_refl).
Defined.

Lemma aggregateToday_ignores_others_witness :
  let today :=
    Examples.menuPayment "tr_2" "10.00" "EUR" "paid" "2026-10-25T00:30:00+02:00" in
  let eveningBefore :=
    Examples.menuPayment "tr_1" "5.50" "EUR" "paid" "2026-10-24T23:30:00+02:00" in
  TransactionsMenuBar.aggregateToday
    (dates := Examples.amsterdam) (numbers := Examples.numbers)
    Examples.clockChangeEvening (Some [eveningBefore; today])
  = TransactionsMenuBar.aggregateToday
      (dates := Examples.amsterdam) (numbers := Examples.numbers)
      Examples.clockChangeEvening (Some [today]).
Proof.
  cbn zeta.
  apply (aggregateToday_ignores_others
           (dates := Examples.amsterdam) (numbers := Examples.numbers)
           Examples.clockChangeEvening []
           [Examples.menuPayment "tr_2" "10.00" "EUR" "paid"
              "2026-10-25T00:30:00+02:00"]
           (Examples.menuPayment "tr_1" "5.50" "EUR" "paid"
              "2026-10-24T23:30:00+02:00")).
  intros [_ Hq]. vm_compute in Hq. by apply Hq.
Defined.

Lemma todayPaidPayments_no_upper_bound_witness :
  let tomorrow :=
    Examples.menuPayment "tr_9" "5.50" "EUR" "paid" "2026-11-04T08:00:00+01:00" in
  tomorrow ∈ TransactionsMenuBar.todayPaidPayments
               (dates := Examples.cetTomorrow) Examples.afternoon [tomorrow].
Proof.
  cbn zeta.
  apply (todayPaidPayments_no_upper_bound
           (dates := Examples.cetTomorrow)
           Examples.afternoon 1793775600000); [left|reflexivity|reflexivity|].
  vm_compute. discriminate.
Defined.

Lemma time_of_day_row_is_counted_witness :
  let today :=
    Examples.menuPayment "tr_1" "10.00" "EUR" "paid" "2026-11-03T09:13:37+01:00" in
  today ∈ TransactionsMenuBar.todayPaidPayments
            (dates := Examples.cet) Examples.afternoon [today].
Proof.
  cbn zeta.
  apply (time_of_day_row_is_counted
           (dates := Examples.cet) Examples.afternoon _ _
           (Some 1793693617000%Z)); [left|reflexivity|reflexivity].
Defined.

(** ** The payout section of the menu *)
Section Payout.
Import TransactionsMenuBar.
Context {dates : Dates} {numbers : Numbers} {strings : Strings}.

Lemma hasSettlementData_complete (settlementData : option Settlement) :
  is_Some (hasSettlementData settlementData) ↔ completeSettlement settlementData.
Proof.
  unfold hasSettlementData, completeSettlement.
  destruct settlementData as [[[a|] [d|]]|]; cbn;
    try (split; [by intros [? ?]|by intros (? & ? & ? & ?)]).
  unfold truthy_string. destruct (String.eqb_spec d EmptyString) as [->|Hd]; cbn.
  - split; [by intros [? ?]|]. intros (? & ? & Heq & Hne).
    injection Heq as _ <-. done.
  - split; [|by eauto]. intros _. by exists a, d.
Qed.

(** The menu tells three states of the settlement apart.  It shows the
    estimated payout exactly when the settlement has an amount and a date,
    also while a refresh is loading; it says that there is no upcoming
    settlement exactly when there is none and loading is over; while loading
    without a settlement it shows neither.  The revenue section is always
    first and the link to the dashboard always last. *)
Theorem payout_section_states (now : Z) (data : option (list Payment))
    (isLoading : bool) (settlementData : option Settlement)
    (isLoadingSettlement : bool) :
  let menu := render now data isLoading settlementData isLoadingSettlement in
  let titles := MenuSection.title <$> Menu.sections menu in
  (Some "Estimated next payout" ∈ titles ↔ completeSettlement settlementData)
  ∧ (Some "Next payout" ∈ titles
     ↔ ¬ completeSettlement settlementData ∧ isLoadingSettlement = false)
  ∧ head (Menu.sections menu) = Some (revenueSection (aggregateToday now data))
  ∧ last (Menu.sections menu) = Some openSection.
Proof.
  cbn zeta. rewrite <- hasSettlementData_complete.
  unfold render, payoutSections. cbn.
  destruct (hasSettlementData settlementData) as [[a d]|];
    [|destruct isLoadingSettlement]; cbn;
    rewrite ?elem_of_cons, ?elem_of_nil, ?is_Some_alt;
    split_and!; try done; split; intros; intuition discriminate.
Qed.

End Payout.

(** ** The authorization flow *)
Section AuthorizationFlow.
Import Authorization.

(** When [authorize] delivers a token, the command shows the loading view
    until the list (or the menu) is rendered with that token, and no toast;
    when it rejects with an error, the command never renders the list: it
    goes from the loading view to the failure view with the error's message,
    and shows one failure toast with that message. *)
Theorem authorization_outcomes (token : string) (message : option string) :
  (Forall (λ st, renderListCommand st = ListLoading
                 ∨ renderListCommand st = Payments (Some token))
          (states initial (doAuthorize (inr token)))
   ∧ renderListCommand (finalState (inr token)) = Payments (Some token)
   ∧ renderMenuCommand (finalState (inr token)) = Transactions (Some token)
   ∧ toasts (doAuthorize (inr token)) = [])
  ∧ (Forall (λ st, renderListCommand st = ListLoading
                   ∨ renderListCommand st = AuthorizationFailed message)
            (states initial (doAuthorize (inl (Truthy message))))
     ∧ renderListCommand (finalState (inl (Truthy message)))
       = AuthorizationFailed message
     ∧ renderMenuCommand (finalState (inl (Truthy message))) = AuthFailed
     ∧ toasts (doAuthorize (inl (Truthy message)))
       = [{| PaymentsList.Toast.style := PaymentsList.Failure;
             PaymentsList.Toast.title := "Authorization Failed";
             PaymentsList.Toast.message := message |}]).
Proof.
  split; (split_and!; [|done..]); cbn;
    repeat (apply Forall_cons; split); try apply Forall_nil_2; cbn; auto.
Qed.

Lemma states_last (st : State) (steps : list Step) :
  last (states st steps) = Some (fold_left step steps st).
Proof.
  revert st. induction steps as [|s rest IH]; intros st; [done|].
  cbn [states fold_left]. rewrite <- IH.
  by destruct (states (step st s) rest) eqn:E; [destruct rest|].
Qed.

(** Loading always ends, however [authorize] settles.  The non-null
    assertion on the token can fail in one case only: the list or the menu is
    rendered without a token only after [authorize] rejected with a falsy
    value. *)
Theorem authorization_loading_ends (outcome : Rejection + string) :
  isLoading (finalState outcome) = false
  ∧ last (states initial (doAuthorize outcome)) = Some (finalState outcome)
  ∧ Forall (λ st,
              renderListCommand st = Payments None
              ∨ renderMenuCommand st = Transactions None →
              ∃ nullish, outcome = inl (Falsy nullish))
           (states initial (doAuthorize outcome)).
Proof.
  split_and!.
  - by destruct outcome as [[m|[]]|token].
  - apply states_last.
  - destruct outcome as [[m|[]]|token]; cbn;
      repeat (apply Forall_cons; split); try apply Forall_nil_2; cbn;
      intros [?|?]; (done || by eauto).
Qed.

End AuthorizationFlow.

(** ** What the actions of a row send *)
Section ActionRequests.
Import PaymentsList.
Context {numbers : Numbers} {jsonText : JsonText}.

(** An action of a row sends at most one request, and a request it sends is
    a POST to the refunds endpoint of the row's payment that carries the
    access token as a bearer token and announces a JSON body. *)
Theorem action_sends_at_most_one_request accessToken (payment : Payment)
    (action : Action) env w :
  action ∈ itemActions payment →
  let w' := (perform accessToken action env w).1 in
  requests w' = requests w
  ∨ ∃ request,
      requests w' = (requests w ++ [request])%list
      ∧ Request.method request = "POST"
      ∧ Request.url request
        = "https://api.mollie.com/v2/payments/" +:+ id payment +:+ "/refunds"
      ∧ Request.headers request
        = [("Authorization", "Bearer " +:+ accessToken);
           ("Content-Type", "application/json")].
Proof.
  intros Ha. cbn zeta. destruct action as [url title|other|title content].
  - by left.
  - apply RefundPayment_in_itemActions in Ha as [-> _]. cbn [perform].
    destruct (handleRefund_cases accessToken payment env w)
      as [[_ ->]|[(_ & _ & ->)|(_ & _ & ->)]].
    + by left.
    + right. by exists (refundRequest accessToken payment).
    + right. by exists (refundRequest accessToken payment).
  - by left.
Qed.

End ActionRequests.

Lemma action_sends_at_most_one_request_witness :
  PaymentsList.Request.headers
    <$> PaymentsList.requests
          (PaymentsList.perform
             (numbers := Examples.numbers) (jsonText := Examples.jsonText)
             "access_1" (PaymentsList.RefundPayment Examples.paidToday)
             (Examples.scripted true (inr Examples.created))
             Examples.emptyWorld).1
  = [[("Authorization", "Bearer access_1");
      ("Content-Type", "application/json")]].
Proof.
  destruct (action_sends_at_most_one_request
              (numbers := Examples.numbers) (jsonText := Examples.jsonText)
              "access_1" Examples.paidToday
              (PaymentsList.RefundPayment Examples.paidToday)
              (Examples.scripted true (inr Examples.created))
              Examples.emptyWorld)
    as [Hn|(request & Hr & _ & _ & Hh)].
  - exact (list_elem_of_further _ _ _ (list_elem_of_here _ _)).
  - discriminate Hn.
  - rewrite Hr. cbn. by rewrite Hh.
Defined.
